(** * FitCast: the decision logic of [app.py]

    A shallow embedding of the four helper functions of the Streamlit
    script [src/app.py] ([get_mock_weather], [adjust_for_comfort],
    [generate_outfit], [shoe_suggestion]), of the call chain of its
    "Outfit Planner" page and of the script itself, one run at a time,
    with its session state and its four pages; together with the
    properties the specification states about them and further
    properties read off the code.

    Python values are modelled as the script uses them: unbounded [int]
    as [Z], [str] as [string], dict literals as [gmap string _], the
    float produced by [/] as an exact rational, exceptions as an error
    result, and the ambient [np.random] generator as an explicit state
    threaded through the calls that draw from it. *)

From Stdlib Require Import ZArith QArith Qround Lia.
From stdpp Require Import gmap strings list fin_maps pretty.

Open Scope string_scope.
Open Scope Z_scope.

(* ===================================================================== *)
(** ** Python: exceptions, dict subscription, float-to-int conversion     *)
(* ===================================================================== *)

Module Py.

(** The built-in exceptions that the modelled operations can raise. *)
Inductive exception : Type :=
| KeyError (key : string)
| ValueError (msg : string).

(** [type(e).__name__] *)
Definition class_name (e : exception) : string :=
  match e with
  | KeyError _ => "KeyError"
  | ValueError _ => "ValueError"
  end.

(** Outcome of evaluating an expression: a value or a raised exception. *)
Inductive result (A : Type) : Type :=
| Ok (a : A)
| Raise (e : exception).
Arguments Ok {A} a.
Arguments Raise {A} e.

#[global] Instance result_ret : MRet result := @Ok.
#[global] Instance result_bind : MBind result := fun A B f r =>
  match r with
  | Ok a => f a
  | Raise e => Raise e
  end.

(** A dict literal [{k1: v1, ..., kn: vn}]: the entries are stored from
    left to right, a later entry replacing an earlier one with its key. *)
Definition dict {V} (entries : list (string * V)) : gmap string V :=
  foldl (fun d kv => <[kv.1 := kv.2]> d) ∅ entries.

(** [d[k]]: subscription of a dict, raising [KeyError(k)] on a missing key. *)
Definition getitem {V} (d : gmap string V) (k : string) : result V :=
  match d !! k with
  | Some v => Ok v
  | None => Raise (KeyError k)
  end.

(** [a / b] on ints with [b] the literal 2 yields a float. Every value
    the script forms this way is a multiple of one half far below 2^53
    in magnitude, which binary64 holds exactly, so the float is
    modelled by the rational it denotes. *)
Definition truediv (a : Z) (b : positive) : Q := inject_Z a / inject_Z (Z.pos b).

(** [float + int] (the int is converted, then added). *)
Definition fadd_int (x : Q) (n : Z) : Q := (x + inject_Z n)%Q.

(** [int(x)] on a float: truncation toward zero. *)
Definition int (x : Q) : Z := Z.quot (Qnum x) (Z.pos (Qden x)).

End Py.
Export Py.

(* ===================================================================== *)
(** ** numpy.random: the global generator as explicit state               *)
(* ===================================================================== *)

Module NumpyRandom.

(** The generator: an unbounded supply of raw draws and the number of
    draws already consumed. Nothing is assumed about the raw values. *)
Record RandomState : Type := mkRandomState {
  entropy : nat -> Z;
  consumed : nat;
}.

Definition seeded (f : nat -> Z) : RandomState := mkRandomState f 0.

(** Computations that may draw from the generator and may raise. The
    generator state survives an exception. *)
Definition M (A : Type) : Type := RandomState -> result A * RandomState.

#[global] Instance M_ret : MRet M := fun A a rs => (Ok a, rs).
#[global] Instance M_bind : MBind M := fun A B f m rs =>
  match m rs with
  | (Ok a, rs') => f a rs'
  | (Raise e, rs') => (Raise e, rs')
  end.

(** A computation that does not touch the generator. *)
Definition pure {A} (r : result A) : M A := fun rs => (r, rs).

(** The state after one more draw. *)
Definition advance (rs : RandomState) : RandomState :=
  mkRandomState (entropy rs) (S (consumed rs)).

Definition next_raw (rs : RandomState) : Z * RandomState :=
  (entropy rs (consumed rs), advance rs).

(** [np.random.randint(low, high)]: an integer of the half-open range
    [low, high); [ValueError] when the range is empty. *)
Definition randint (low high : Z) : M Z := fun rs =>
  if low <? high then
    let '(r, rs') := next_raw rs in
    (Ok (low + r mod (high - low)), rs')
  else (Raise (ValueError "low >= high"), rs).

(** [np.random.choice(a)]: one element of the non-empty list [a]. *)
Definition choice (a : list string) : M string := fun rs =>
  match a with
  | [] => (Raise (ValueError "'a' cannot be empty unless no samples are taken"), rs)
  | x :: _ =>
      let '(r, rs') := next_raw rs in
      (Ok (nth (Z.to_nat (r mod Z.of_nat (length a))) a x), rs')
  end.

End NumpyRandom.
Export NumpyRandom.

(* ===================================================================== *)
(** ** app.py                                                             *)
(* ===================================================================== *)

Module App.

(** *** User inputs (the option lists of the sidebar widgets) *)

Definition cities : list string := ["Miami"; "New York"; "Chicago"; "Los Angeles"].

Definition styles : list string := ["Cozy"; "Casual"; "Dressy"; "Sporty"].

Definition comfort_levels : list string :=
  ["I am a furnace"; "I run warm"; "I am normal"; "I run cold";
   "I am freezing all the time"].

(** The list [np.random.choice] draws the rain chance from. *)
Definition rain_chances : list string := ["Low"; "Medium"; "High"].

(** *** Helper functions *)

(** The dict returned by [get_mock_weather], with its four fixed keys. *)
Record weather : Type := mkWeather {
  low : Z;
  high : Z;
  feels_like : Z;
  rain_chance : string;
}.

Definition base : gmap string (Z * Z) :=
  dict [("Miami", (75, 85)); ("New York", (60, 72));
        ("Chicago", (55, 68)); ("Los Angeles", (65, 78))].

Definition get_mock_weather (city : string) : M weather :=
  lh ← pure (getitem base city);
  let '(low, high) := lh in
  p ← randint (-2) 3;
  let feels_like := int (fadd_int (truediv (low + high) 2) p) in
  rain ← choice rain_chances;
  mret (mkWeather low high feels_like rain).

Definition adjustments : gmap string Z :=
  dict [("I am a furnace", 6); ("I run warm", 3); ("I am normal", 0);
        ("I run cold", -3); ("I am freezing all the time", -6)].

Definition adjust_for_comfort (feels_like : Z) (comfort : string) : result Z :=
  offset ← getitem adjustments comfort;
  mret (feels_like + offset).

Definition bottoms : gmap string string :=
  dict [("Cozy", "soft pants or leggings"); ("Casual", "jeans");
        ("Dressy", "tailored pants or skirt"); ("Sporty", "athletic bottoms")].

Definition generate_outfit (adjusted_temp : Z) (style : string)
  : result (string * string * string) :=
  let '(top, outer) :=
    if adjusted_temp >=? 80 then
      ("light tank or breathable tee", "no jacket needed")
    else if adjusted_temp >=? 70 then
      ("short-sleeve shirt", "optional light layer")
    else if adjusted_temp >=? 60 then
      ("long-sleeve top", "light jacket or cardigan")
    else
      ("warm sweater", "jacket or coat") in
  bottom ← getitem bottoms style;
  mret (top, outer, bottom).

Definition shoe_suggestion (adjusted_temp : Z) (rain : string) : result string :=
  if String.eqb rain "High" then
    mret "water-resistant shoes"
  else if adjusted_temp >=? 75 then
    mret "sandals or breathable sneakers"
  else if adjusted_temp >=? 60 then
    mret "sneakers or flats"
  else
    mret "closed-toe shoes or boots".

(** *** The "Outfit Planner" page, once the button has been pressed *)

Record plan : Type := mkPlan {
  plan_weather : weather;
  plan_adjusted_temp : Z;
  plan_outfit : string * string * string;
  plan_shoes : option string;
}.

Definition outfit_planner (city style comfort_level : string) (show_shoes : bool)
  : M plan :=
  weather ← get_mock_weather city;
  adjusted_temp ← pure (adjust_for_comfort (feels_like weather) comfort_level);
  outfit ← pure (generate_outfit adjusted_temp style);
  if show_shoes then
    shoes ← pure (shoe_suggestion adjusted_temp (rain_chance weather));
    mret (mkPlan weather adjusted_temp outfit (Some shoes))
  else
    mret (mkPlan weather adjusted_temp outfit None).

End App.
Export App.

(* ===================================================================== *)
(** ** shoe_suggestion on values that are not strings                     *)
(* ===================================================================== *)

(** [shoe_suggestion] declares no type for [rain]. The script only ever
    passes it the string [np.random.choice] returned, which is what
    [App.shoe_suggestion] models; this module follows the same body on
    other Python values, to see what the test [rain == "High"] does with
    them. *)
Module Untyped.

(** A fragment of Python's values: strings ([str], [numpy.str_]), ints,
    [None], and non-empty one-dimensional numpy arrays of strings. *)
Inductive value : Type :=
| Str (s : string)
| Int (n : Z)
| NoneValue
| ndarray (first : string) (rest : list string).

(** What [==] returns: a boolean, or for an array the array of the
    element-wise comparisons. *)
Inductive comparison : Type :=
| Bool (b : bool)
| BoolArray (first : bool) (rest : list bool).

(** [v == s] for a string [s]: equality of strings; [False] for an int or
    [None]; element by element for an array. *)
Definition equals (v : value) (s : string) : comparison :=
  match v with
  | Str s' => Bool (String.eqb s' s)
  | Int _ => Bool false
  | NoneValue => Bool false
  | ndarray x xs => BoolArray (String.eqb x s) (map (fun y => String.eqb y s) xs)
  end.

(** The truth test of an [if]: an array of more than one element has no
    truth value, numpy raises [ValueError]. *)
Definition truth (c : comparison) : result bool :=
  match c with
  | Bool b => Ok b
  | BoolArray b [] => Ok b
  | BoolArray _ (_ :: _) =>
      Raise (ValueError
               "The truth value of an array with more than one element is ambiguous. Use a.any() or a.all()")
  end.

Definition shoe_suggestion (adjusted_temp : Z) (rain : value) : result string :=
  high ← truth (equals rain "High");
  if (high : bool) then
    mret "water-resistant shoes"
  else if adjusted_temp >=? 75 then
    mret "sandals or breathable sneakers"
  else if adjusted_temp >=? 60 then
    mret "sneakers or flats"
  else
    mret "closed-toe shoes or boots".

(** The values whose comparison with a string is a plain boolean. *)
Definition scalar (v : value) : Prop :=
  match v with
  | ndarray _ _ => False
  | _ => True
  end.

End Untyped.

(* ===================================================================== *)
(** ** The specification's own wording, for comparison with the code      *)
(* ===================================================================== *)

Module Spec.

(** The per-city (low, high) table as the specification lists it. *)
Definition city_table : list (string * (Z * Z)) :=
  [("Miami", (75, 85)); ("New York", (60, 72));
   ("Chicago", (55, 68)); ("Los Angeles", (65, 78))].

(** The comfort offsets as the specification lists them, in order. *)
Definition offset_table : list (string * Z) :=
  [("I am a furnace", 6); ("I run warm", 3); ("I am normal", 0);
   ("I run cold", -3); ("I am freezing all the time", -6)].

(** The exact midpoint (low + high) / 2. *)
Definition midpoint (low high : Z) : Q := inject_Z (low + high) / 2.

(** "round": to the nearest integer, a tie going up. *)
Definition round_half_up (x : Q) : Z := Qfloor (x + (1 # 2)).

(** "round": to the nearest integer, a tie going to the even neighbour
    (what Python's built-in [round] does). *)
Definition round_half_even (x : Q) : Z :=
  let f := Qfloor x in
  match (x - inject_Z f ?= 1 # 2)%Q with
  | Lt => f
  | Gt => f + 1
  | Eq => if Z.even f then f else f + 1
  end.

(** "feelsLike lies within [(low+high)/2 - 2, (low+high)/2 + 2]". *)
Definition within_two_of_midpoint (w : weather) : Prop :=
  (midpoint (low w) (high w) - 2 <= inject_Z (feels_like w)
   /\ inject_Z (feels_like w) <= midpoint (low w) (high w) + 2)%Q.

(** The error names of the specification's taxonomy. *)
Definition UnknownCityError : string := "UnknownCityError".
Definition UnknownComfortLevelError : string := "UnknownComfortLevelError".
Definition UnknownStyleError : string := "UnknownStyleError".

End Spec.

(* ===================================================================== *)
(** ** app.py as a script: one Streamlit run                              *)
(* ===================================================================== *)

Module Script.

(** The values the sidebar widgets return to one run of the script. The
    date is carried as the text [str(selected_day)], the only way the
    script uses it. [get_my_outfit] is the return value of the button. *)
Record widgets : Type := mkWidgets {
  page : string;
  city : string;
  style : string;
  selected_day : string;
  comfort_level : string;
  show_shoes : bool;
  get_my_outfit : bool;
}.

(** The option list of the navigation radio. *)
Definition pages : list string :=
  ["Home"; "Outfit Planner"; "Forecast Details"; "About HCI Choices"].

(** [st.session_state] as the browser session keeps it between runs: each
    of the two keys is absent ([None]) or holds a value; the value of
    "weather_data" is Python's [None] or a reading. *)
Record session_state : Type := mkSessionState {
  stored_generate_outfit : option bool;
  stored_weather_data : option (option weather);
}.

(** The session of a browser tab that has not run the script yet. *)
Definition new_session : session_state := mkSessionState None None.

(** [st.session_state] once both keys exist. *)
Record session : Type := mkSession {
  generate_outfit_flag : bool;
  weather_data : option weather;
}.

(** "Session State Initialization": a key is set only when it is absent. *)
Definition initialize (stored : session_state) : session :=
  mkSession
    (match stored_generate_outfit stored with Some b => b | None => false end)
    (match stored_weather_data stored with Some d => d | None => None end).

Definition store (s : session) : session_state :=
  mkSessionState (Some (generate_outfit_flag s)) (Some (weather_data s)).

(** A [pd.DataFrame] built from a dict of columns. *)
Definition DataFrame : Type := list (string * list string).

(** The display calls of the main area. *)
Inductive element : Type :=
| title (body : string)
| caption (body : string)
| subheader (body : string)
| write (body : string)
| info (body : string)
| success (body : string)
| markdown (body : string)
| table (data : DataFrame).

(** Where an element is drawn: the page itself, or one of the two
    columns of [st.columns(2)]. *)
Inductive container : Type :=
| main_area
| col1
| col2.

(** What a run has done so far: the session, the generator, and the
    elements drawn from the title on, in order. All three survive an
    exception. *)
Record run_state : Type := mkRunState {
  run_session : session;
  run_random : RandomState;
  rendered : list (container * element);
}.

Definition Run (A : Type) : Type := run_state -> result A * run_state.

#[global] Instance Run_ret : MRet Run := fun A a st => (Ok a, st).
#[global] Instance Run_bind : MBind Run := fun A B f m st =>
  match m st with
  | (Ok a, st') => f a st'
  | (Raise e, st') => (Raise e, st')
  end.

Definition draw (c : container) (e : element) : Run unit := fun st =>
  (Ok tt, mkRunState (run_session st) (run_random st) (rendered st ++ [(c, e)])).

(** A helper function that may use the generator. *)
Definition call_random {A} (m : M A) : Run A := fun st =>
  let '(r, rs') := m (run_random st) in
  (r, mkRunState (run_session st) rs' (rendered st)).

(** A helper function that does not. *)
Definition call {A} (r : result A) : Run A := fun st => (r, st).

Definition get_session : Run session := fun st => (Ok (run_session st), st).

Definition set_generate_outfit (b : bool) : Run unit := fun st =>
  (Ok tt, mkRunState (mkSession b (weather_data (run_session st)))
            (run_random st) (rendered st)).

Definition set_weather_data (d : option weather) : Run unit := fun st =>
  (Ok tt, mkRunState (mkSession (generate_outfit_flag (run_session st)) d)
            (run_random st) (rendered st)).

(** The line feed written [\n] in a Python literal. *)
Definition newline : string := String (Ascii.ascii_of_nat 10) EmptyString.

(** [str(n)] and [f"{n}"] for an int. *)
Definition str (n : Z) : string := pretty n.

Definition home_text : string := "
        FitCast helps you decide what to wear without overthinking it.

        Instead of showing raw forecast numbers, this app translates
        weather conditions into a **clear, wearable outfit idea**.

        Use the sidebar to customize your preferences and generate
        an outfit suggestion tailored to *you*.
        ".

Definition about_text : string := "
        **Target users**
        - Students and young professionals getting dressed for class, work, or social plans  
        - People who want guidance without analyzing weather charts  

        **Usability goals**
        - **Effectiveness:** Convert weather data into one clear outfit suggestion  
        - **Efficiency:** All controls live in the sidebar; one click generates results  
        - **Learnability:** Uses familiar widgets (dropdowns, radio buttons, checkboxes)  
        - **User satisfaction:** Friendly language and comfort-based choices  

        **HCI principles applied**
        - **Visibility & feedback:** Success and info messages explain system state  
        - **Consistency:** Light blue theme and layout match my Project 1 usability tool  
        - **Error prevention:** Pages guide users instead of failing silently  
        - **Match with the real world:** Comfort levels like “I am a furnace” instead of numbers  

        This design prioritizes **decision support**, not raw data display.
        ".

(** The "Home" branch. *)
Definition home_page : Run unit :=
  draw main_area (subheader "Welcome");;
  draw main_area (write home_text).

(** The "Outfit Planner" branch. *)
Definition outfit_planner_page (w : widgets) : Run unit :=
  draw main_area (subheader "Your Outfit Suggestion");;
  s ← get_session;
  if negb (generate_outfit_flag s) then
    draw main_area
      (info "Choose your preferences in the sidebar and click **Get my outfit**.")
  else
    weather ← call_random (get_mock_weather (city w));
    set_weather_data (Some weather);;
    adjusted_temp ← call (adjust_for_comfort (feels_like weather) (comfort_level w));
    outfit ← call (generate_outfit adjusted_temp (style w));
    let '(top, outer, bottom) := outfit in
    draw main_area
      (success ("Outfit ready for **" +:+ city w +:+ "** on **"
                +:+ selected_day w +:+ "**"));;
    draw col1 (markdown "### Outfit Breakdown");;
    draw col1 (markdown ("**Top:** " +:+ top));;
    draw col1 (markdown ("**Outer layer:** " +:+ outer));;
    draw col1 (markdown ("**Bottom:** " +:+ bottom));;
    draw col1 (markdown ("**Style vibe:** " +:+ style w));;
    draw col2 (markdown "### Comfort Logic");;
    draw col2 (markdown ("- Feels like: **" +:+ str (feels_like weather) +:+ "°F**"));;
    draw col2 (markdown ("- Adjusted for comfort: **" +:+ str adjusted_temp +:+ "°F**"));;
    draw col2 (markdown ("- Rain chance: **" +:+ rain_chance weather +:+ "**"));;
    if show_shoes w then
      shoes ← call (shoe_suggestion adjusted_temp (rain_chance weather));
      draw main_area (markdown ("### Shoes 👟" +:+ newline +:+ "**" +:+ shoes +:+ "**"))
    else
      mret tt.

(** The frame of the "Forecast Details" table. *)
Definition forecast_frame (data : weather) : DataFrame :=
  [("Metric", ["Low Temp"; "High Temp"; "Feels Like"; "Rain Chance"]);
   ("Value", [str (low data) +:+ "°F";
              str (high data) +:+ "°F";
              str (feels_like data) +:+ "°F";
              rain_chance data])].

(** The "Forecast Details" branch. *)
Definition forecast_details_page : Run unit :=
  draw main_area (subheader "Forecast Details");;
  s ← get_session;
  match weather_data s with
  | None => draw main_area (info "Generate an outfit first to view forecast details.")
  | Some data =>
      draw main_area (table (forecast_frame data));;
      draw main_area
        (caption "Forecast data is intentionally simplified to support usability testing.")
  end.

(** The "About HCI Choices" branch. *)
Definition about_page : Run unit :=
  draw main_area (subheader "About the HCI / UX choices");;
  draw main_area (markdown about_text).

(** The dispatch on the chosen page. *)
Definition page_body (w : widgets) : Run unit :=
  if String.eqb (page w) "Home" then home_page
  else if String.eqb (page w) "Outfit Planner" then outfit_planner_page w
  else if String.eqb (page w) "Forecast Details" then forecast_details_page
  else if String.eqb (page w) "About HCI Choices" then about_page
  else mret tt.

(** The script from the button on: the button sets the flag, the title
    and its caption are drawn, then the branch of the chosen page runs. *)
Definition script_body (w : widgets) : Run unit :=
  (if get_my_outfit w then set_generate_outfit true else mret tt);;
  draw main_area (title "FitCast – Outfit Weather Assistant");;
  draw main_area (caption "Weather-powered outfit ideas with a little HCI sprinkled in.");;
  page_body w.

(** One run of the script: the outcome (normal end or exception), the
    session as the browser keeps it, the generator, and what was drawn. *)
Record outcome : Type := mkOutcome {
  raised : option exception;
  session_after : session_state;
  random_after : RandomState;
  drawn : list (container * element);
}.

Definition outcome_of (run : result unit * run_state) : outcome :=
  let '(r, st) := run in
  mkOutcome (match r with Ok _ => None | Raise e => Some e end)
    (store (run_session st)) (run_random st) (rendered st).

Definition script (w : widgets) (stored : session_state) (rs : RandomState) : outcome :=
  outcome_of (script_body w (mkRunState (initialize stored) rs [])).

(** A browsing session: the script is rerun on each interaction, with the
    session and the generator left by the run before. *)
Fixpoint browse (ws : list widgets) (stored : session_state) (rs : RandomState)
  : session_state * RandomState :=
  match ws with
  | [] => (stored, rs)
  | w :: ws' =>
      let o := script w stored rs in
      browse ws' (session_after o) (random_after o)
  end.

(** The readings [get_mock_weather] generates: the range of some city of
    its table, a perceived temperature inside that range, and one of the
    three rain chances. *)
Definition generated_reading (d : weather) : Prop :=
  (exists city, In (city, (low d, high d)) Spec.city_table)
  /\ low d <= feels_like d <= high d
  /\ In (rain_chance d) rain_chances.

End Script.

Example get_mock_weather_miami :
  fst (get_mock_weather "Miami" (seeded (fun _ => 2))) = Ok (mkWeather 75 85 80 "High").
Proof. vm_compute. reflexivity. Qed.

Example get_mock_weather_chicago :
  fst (get_mock_weather "Chicago" (seeded (fun _ => 2))) = Ok (mkWeather 55 68 61 "High").
Proof. vm_compute. reflexivity. Qed.

Example generate_outfit_80 :
  generate_outfit 80 "Casual" = Ok ("light tank or breathable tee", "no jacket needed", "jeans").
Proof. vm_compute. reflexivity. Qed.

Example shoe_suggestion_55_high : shoe_suggestion 55 "High" = Ok "water-resistant shoes".
Proof. reflexivity. Qed.

(* ===================================================================== *)
(** ** Facts about the Python layer                                       *)
(* ===================================================================== *)

Section dict_facts.
Context {V : Type}.
Implicit Types (entries : list (string * V)) (d : gmap string V) (k : string).

Lemma foldl_insert_lookup_fresh entries d k :
  ~ In k (map fst entries) ->
  foldl (fun d kv => <[kv.1 := kv.2]> d) d entries !! k = d !! k.
Proof.
  revert d. induction entries as [|[k' v] entries IH]; intros d Hk; [done|].
  simpl in *. rewrite IH by tauto.
  apply lookup_insert_ne. intros ->. tauto.
Qed.

(** A key that no entry of the literal carries is absent from the dict. *)
Lemma dict_lookup_fresh entries k :
  ~ In k (map fst entries) -> dict entries !! k = None.
Proof.
  intros Hk. unfold dict. rewrite foldl_insert_lookup_fresh by done.
  apply lookup_empty.
Qed.

(** Subscription with such a key raises [KeyError] carrying the key. *)
Lemma getitem_fresh entries k :
  ~ In k (map fst entries) -> getitem (dict entries) k = Raise (KeyError k).
Proof. intros Hk. unfold getitem. by rewrite dict_lookup_fresh. Qed.

Lemma getitem_Some d k v : d !! k = Some v -> getitem d k = Ok v.
Proof. intros H. unfold getitem. by rewrite H. Qed.

Lemma foldl_insert_lookup_In entries d k v :
  NoDup (map fst entries) -> In (k, v) entries ->
  foldl (fun d kv => <[kv.1 := kv.2]> d) d entries !! k = Some v.
Proof.
  revert d. induction entries as [|[k' v'] entries IH]; intros d Hnd Hin; [done|].
  simpl in *. apply NoDup_cons in Hnd as [Hfresh Hnd].
  destruct Hin as [[= -> ->]|Hin].
  - rewrite foldl_insert_lookup_fresh.
    + apply lookup_insert_eq.
    + by rewrite <- list_elem_of_In.
  - by apply IH.
Qed.

(** With pairwise distinct keys, the dict holds exactly the literal's
    entries. *)
Lemma dict_lookup_In entries k v :
  NoDup (map fst entries) ->
  In (k, v) entries <-> dict entries !! k = Some v.
Proof.
  intros Hnd. split.
  - by apply foldl_insert_lookup_In.
  - intros Hlk. destruct (in_dec String.string_dec k (map fst entries)) as [Hin|Hout].
    + apply in_map_iff in Hin as ([k' v'] & Hk & Hin). simpl in Hk. subst k'.
      pose proof (foldl_insert_lookup_In _ ∅ _ _ Hnd Hin) as Hlk'.
      unfold dict in Hlk. rewrite Hlk in Hlk'. by injection Hlk' as <-.
    + rewrite dict_lookup_fresh in Hlk by done. discriminate.
Qed.
End dict_facts.

(** [int((n / 2) + p)] for a non-negative sum is floor division plus [p]. *)
Lemma int_half_plus (n p : Z) :
  0 <= n + 2 * p -> int (fadd_int (truediv n 2) p) = n / 2 + p.
Proof.
  intros Hnn. unfold int, fadd_int, truediv. cbn.
  change (Z.pos (1 * 2 * 1)) with 2. change (Z.pos (1 * 2)) with 2.
  rewrite Z.quot_div_nonneg by lia.
  replace (n * 1 * 1 + p * 2) with (n + p * 2) by lia.
  apply Z.div_add. lia.
Qed.

(* ===================================================================== *)
(** ** Facts about the generator                                          *)
(* ===================================================================== *)

Lemma randint_Ok (lo hi : Z) (rs : RandomState) :
  lo < hi ->
  randint lo hi rs = (Ok (lo + entropy rs (consumed rs) mod (hi - lo)), advance rs).
Proof.
  intros Hlt. unfold randint. destruct (Z.ltb_spec lo hi); [reflexivity | lia].
Qed.

(** A successful [randint] lies in the half-open range it was asked for. *)
Lemma randint_range (lo hi p : Z) (rs rs' : RandomState) :
  randint lo hi rs = (Ok p, rs') -> lo <= p < hi.
Proof.
  unfold randint. destruct (Z.ltb_spec lo hi) as [Hlt|Hge]; [|discriminate].
  simpl. intros [= <- _].
  pose proof (Z.mod_pos_bound (entropy rs (consumed rs)) (hi - lo)). lia.
Qed.

(** Every integer of the range is drawn from some generator state. *)
Lemma randint_onto (lo hi p : Z) :
  lo <= p < hi -> exists rs rs', randint lo hi rs = (Ok p, rs').
Proof.
  intros Hp. exists (seeded (fun _ => p - lo)), (advance (seeded (fun _ => p - lo))).
  rewrite randint_Ok by lia. simpl. rewrite Z.mod_small by lia.
  do 2 f_equal. lia.
Qed.

(** A successful [choice] returns an element of its list. *)
Lemma choice_In (a : list string) (x : string) (rs rs' : RandomState) :
  choice a rs = (Ok x, rs') -> In x a.
Proof.
  unfold choice, next_raw. destruct a as [|y a]; [discriminate|].
  cbv beta iota zeta. intros [= <- _].
  set (i := Z.to_nat _).
  destruct (Nat.lt_ge_cases i (length (y :: a))) as [Hlt|Hge].
  - change (In (nth i (y :: a) y) (y :: a)). by apply nth_In.
  - change (In (nth i (y :: a) y) (y :: a)).
    rewrite nth_overflow by done. by left.
Qed.

Lemma choice_Ok (y : string) (a : list string) (rs : RandomState) :
  exists x, choice (y :: a) rs = (Ok x, advance rs).
Proof. unfold choice. simpl. eauto. Qed.

(* ===================================================================== *)
(** ** get_mock_weather                                                   *)
(* ===================================================================== *)

(** The code's table is the specification's table. *)
Lemma base_city_table (city : string) (lo hi : Z) :
  In (city, (lo, hi)) Spec.city_table <-> base !! city = Some (lo, hi).
Proof. apply dict_lookup_In. by apply (bool_decide_unpack _). Qed.

Lemma city_table_bounds (city : string) (lo hi : Z) :
  In (city, (lo, hi)) Spec.city_table -> lo <= hi /\ 4 <= lo + hi.
Proof. simpl. intros [H|[H|[H|[H|[]]]]]; injection H as <- <- <-; lia. Qed.

(** One run of [get_mock_weather] on a city of the table: the range is
    read from the table, the perturbation is the value [randint] draws,
    the rain chance the value [choice] draws next, and the perceived
    temperature is the floor of the midpoint plus the perturbation. *)
Lemma get_mock_weather_run (city : string) (lo hi : Z) (rs : RandomState) :
  In (city, (lo, hi)) Spec.city_table ->
  exists p rain rs1 rs2,
    randint (-2) 3 rs = (Ok p, rs1)
    /\ choice rain_chances rs1 = (Ok rain, rs2)
    /\ get_mock_weather city rs
       = (Ok (mkWeather lo hi ((lo + hi) / 2 + p) rain), rs2).
Proof.
  intros Hin. pose proof (city_table_bounds _ _ _ Hin) as [_ Hsum].
  apply base_city_table in Hin.
  destruct (choice_Ok "Low" ["Medium"; "High"] (advance rs)) as [rain Hrain].
  exists (-2 + entropy rs (consumed rs) mod (3 - -2)), rain, (advance rs), (advance (advance rs)).
  split; [by apply randint_Ok|]. split; [exact Hrain|].
  unfold get_mock_weather, mbind, M_bind, pure.
  rewrite (getitem_Some _ _ _ Hin). cbv beta iota zeta.
  rewrite randint_Ok by lia. cbv beta iota zeta.
  change ["Low"; "Medium"; "High"] with rain_chances in Hrain. rewrite Hrain.
  unfold mret, M_ret. do 3 f_equal.
  apply int_half_plus.
  pose proof (Z.mod_pos_bound (entropy rs (consumed rs)) (3 - -2)). lia.
Qed.

(** C3, as the specification words it, fails: it asks for
    round((low+high)/2) + p, but the code converts with [int], which
    truncates. For Chicago the midpoint is 61.5; with the perturbation
    drawn as 0 the code returns 61, while rounding to the nearest integer
    (ties up, or ties to even as Python's [round]) gives 62. *)
Lemma get_mock_weather_not_rounded :
  exists w rs1 rs2,
    randint (-2) 3 (seeded (fun _ => 2)) = (Ok 0, rs1)
    /\ get_mock_weather "Chicago" (seeded (fun _ => 2)) = (Ok w, rs2)
    /\ low w = 55 /\ high w = 68 /\ feels_like w = 61
    /\ Spec.round_half_even (Spec.midpoint 55 68) + 0 = 62
    /\ Spec.round_half_up (Spec.midpoint 55 68) + 0 = 62
    /\ feels_like w <> Spec.round_half_even (Spec.midpoint (low w) (high w)) + 0
    /\ feels_like w <> Spec.round_half_up (Spec.midpoint (low w) (high w)) + 0.
Proof.
  eexists _, _, _. split; [reflexivity|]. split; [vm_compute; reflexivity|].
  vm_compute. repeat split; discriminate.
Qed.

(** C3 (amended): for every city of the table and every state of the
    random source, [get_mock_weather] reads (low, high) from the fixed
    per-city table and returns feels_like = floor((low+high)/2) + p, where
    p is the integer [randint(-2, 3)] draws, one of -2, -1, 0, 1, 2, and
    the rain chance is the value [choice] draws next, one of Low, Medium,
    High; each of the five perturbations is drawn from some state. *)
Theorem get_mock_weather_floor_midpoint_plus_perturbation
    (city : string) (lo hi : Z) (rs : RandomState) :
  In (city, (lo, hi)) Spec.city_table ->
  (exists p rain rs1 rs2,
      randint (-2) 3 rs = (Ok p, rs1)
      /\ choice ["Low"; "Medium"; "High"] rs1 = (Ok rain, rs2)
      /\ In p [-2; -1; 0; 1; 2]
      /\ In rain ["Low"; "Medium"; "High"]
      /\ get_mock_weather city rs
         = (Ok (mkWeather lo hi ((lo + hi) / 2 + p) rain), rs2))
  /\ (forall p, In p [-2; -1; 0; 1; 2] ->
        exists rs0 rain rs2,
          get_mock_weather city rs0
          = (Ok (mkWeather lo hi ((lo + hi) / 2 + p) rain), rs2)).
Proof.
  intros Hin. split.
  - destruct (get_mock_weather_run city lo hi rs Hin)
      as (p & rain & rs1 & rs2 & Hp & Hrain & Hrun).
    exists p, rain, rs1, rs2. repeat split; try assumption.
    + apply randint_range in Hp. simpl. lia.
    + by apply choice_In in Hrain.
  - intros p Hp.
    destruct (randint_onto (-2) 3 p) as (rs0 & rs1 & Hdraw); [simpl in Hp; lia|].
    destruct (get_mock_weather_run city lo hi rs0 Hin)
      as (p' & rain & rs1' & rs2 & Hp' & _ & Hrun).
    rewrite Hdraw in Hp'. injection Hp' as <- <-. eauto.
Qed.

Lemma get_mock_weather_floor_midpoint_plus_perturbation_witness :
  (exists p rain rs1 rs2,
      randint (-2) 3 (seeded (fun _ => 2)) = (Ok p, rs1)
      /\ choice ["Low"; "Medium"; "High"] rs1 = (Ok rain, rs2)
      /\ In p [-2; -1; 0; 1; 2]
      /\ In rain ["Low"; "Medium"; "High"]
      /\ get_mock_weather "Chicago" (seeded (fun _ => 2))
         = (Ok (mkWeather 55 68 ((55 + 68) / 2 + p) rain), rs2))
  /\ (forall p, In p [-2; -1; 0; 1; 2] ->
        exists rs0 rain rs2,
          get_mock_weather "Chicago" rs0
          = (Ok (mkWeather 55 68 ((55 + 68) / 2 + p) rain), rs2)).
Proof.
  apply (get_mock_weather_floor_midpoint_plus_perturbation "Chicago" 55 68).
  simpl. tauto.
Defined.

(** C4, as the specification words it, fails: with the perturbation drawn
    as -2 the reading for Chicago has feels_like = 59, below the lower end
    61.5 - 2 = 59.5 of the stated interval around the midpoint; it is also
    below 62 - 2 = 60, the lower end around the midpoint rounded to the
    nearest integer. *)
Lemma get_mock_weather_below_midpoint_band :
  exists w rs2,
    get_mock_weather "Chicago" (seeded (fun _ => 0)) = (Ok w, rs2)
    /\ low w = 55 /\ high w = 68 /\ feels_like w = 59
    /\ ~ Spec.within_two_of_midpoint w
    /\ ~ Spec.round_half_even (Spec.midpoint (low w) (high w)) - 2 <= feels_like w
    /\ ~ Spec.round_half_up (Spec.midpoint (low w) (high w)) - 2 <= feels_like w.
Proof.
  eexists _, _. split; [vm_compute; reflexivity|].
  repeat split.
  - intros [Hlo _]. vm_compute in Hlo. by apply Hlo.
  - vm_compute. intros H. by apply H.
  - vm_compute. intros H. by apply H.
Qed.

(** C4 (amended): for every city of the table and every state of the
    random source, the reading [get_mock_weather] returns has low and high
    equal to the city's table entry, low <= high, and feels_like is the
    integer part (one truncation toward zero) of a value within
    [(low+high)/2 - 2, (low+high)/2 + 2]; hence feels_like lies within
    [floor((low+high)/2) - 2, floor((low+high)/2) + 2] inclusive. *)
Theorem get_mock_weather_within_floor_midpoint_band
    (city : string) (lo hi : Z) (rs : RandomState) :
  In (city, (lo, hi)) Spec.city_table ->
  exists w rs' x,
    get_mock_weather city rs = (Ok w, rs')
    /\ low w = lo /\ high w = hi /\ low w <= high w
    /\ (Spec.midpoint (low w) (high w) - 2 <= x)%Q
    /\ (x <= Spec.midpoint (low w) (high w) + 2)%Q
    /\ feels_like w = int x
    /\ (low w + high w) / 2 - 2 <= feels_like w <= (low w + high w) / 2 + 2.
Proof.
  intros Hin.
  destruct (get_mock_weather_run city lo hi rs Hin)
    as (p & rain & rs1 & rs2 & Hp & _ & Hrun).
  apply randint_range in Hp. apply city_table_bounds in Hin as [Hle Hsum].
  exists (mkWeather lo hi ((lo + hi) / 2 + p) rain), rs2,
    (fadd_int (truediv (lo + hi) 2) p).
  split; [exact Hrun|]. cbn [low high feels_like].
  repeat split; try lia.
  - unfold Spec.midpoint, fadd_int, truediv, Qle. cbn. lia.
  - unfold Spec.midpoint, fadd_int, truediv, Qle. cbn. lia.
  - symmetry. apply int_half_plus. lia.
Qed.

Lemma get_mock_weather_within_floor_midpoint_band_witness :
  exists w rs' x,
    get_mock_weather "Los Angeles" (seeded (fun _ => 4)) = (Ok w, rs')
    /\ low w = 65 /\ high w = 78 /\ low w <= high w
    /\ (Spec.midpoint (low w) (high w) - 2 <= x)%Q
    /\ (x <= Spec.midpoint (low w) (high w) + 2)%Q
    /\ feels_like w = int x
    /\ (low w + high w) / 2 - 2 <= feels_like w <= (low w + high w) / 2 + 2.
Proof.
  apply (get_mock_weather_within_floor_midpoint_band "Los Angeles" 65 78).
  simpl. tauto.
Defined.

(* ===================================================================== *)
(** ** adjust_for_comfort                                                 *)
(* ===================================================================== *)

(** The code's offsets are the specification's offsets. *)
Lemma adjustments_offset_table (comfort : string) (offset : Z) :
  In (comfort, offset) Spec.offset_table <-> adjustments !! comfort = Some offset.
Proof. apply dict_lookup_In. by apply (bool_decide_unpack _). Qed.

Lemma comfort_levels_offset (comfort : string) :
  In comfort comfort_levels <-> exists offset, In (comfort, offset) Spec.offset_table.
Proof.
  split.
  - simpl. intros [<-|[<-|[<-|[<-|[<-|[]]]]]]; eexists; simpl; eauto 6.
  - intros [offset Hin]. apply (in_map fst) in Hin. exact Hin.
Qed.

Lemma adjust_for_comfort_offset (feels : Z) (comfort : string) (offset : Z) :
  In (comfort, offset) Spec.offset_table ->
  adjust_for_comfort feels comfort = Ok (feels + offset).
Proof.
  intros Hin. apply adjustments_offset_table in Hin.
  unfold adjust_for_comfort. by rewrite (getitem_Some _ _ _ Hin).
Qed.

(** C6: for every integer feels_like, [adjust_for_comfort] returns
    feels_like plus the fixed offset of the comfort level: +6 for "I am a
    furnace", +3 for "I run warm", 0 for "I am normal", -3 for "I run
    cold", -6 for "I am freezing all the time", the levels being offered
    in this order. *)
Theorem adjust_for_comfort_offsets (feels : Z) :
  adjust_for_comfort feels "I am a furnace" = Ok (feels + 6)
  /\ adjust_for_comfort feels "I run warm" = Ok (feels + 3)
  /\ adjust_for_comfort feels "I am normal" = Ok feels
  /\ adjust_for_comfort feels "I run cold" = Ok (feels - 3)
  /\ adjust_for_comfort feels "I am freezing all the time" = Ok (feels - 6)
  /\ map (adjust_for_comfort feels) comfort_levels
     = [Ok (feels + 6); Ok (feels + 3); Ok feels; Ok (feels - 3); Ok (feels - 6)].
Proof.
  assert (H6 := adjust_for_comfort_offset feels "I am a furnace" 6).
  assert (H3 := adjust_for_comfort_offset feels "I run warm" 3).
  assert (H0 := adjust_for_comfort_offset feels "I am normal" 0).
  assert (H3' := adjust_for_comfort_offset feels "I run cold" (-3)).
  assert (H6' := adjust_for_comfort_offset feels "I am freezing all the time" (-6)).
  rewrite Z.add_0_r in H0.
  change (feels + -3) with (feels - 3) in H3'.
  change (feels + -6) with (feels - 6) in H6'.
  unfold comfort_levels, map.
  rewrite H6, H3, H0, H3', H6' by (simpl; tauto).
  repeat split.
Qed.

(** C7: [adjust_for_comfort] is linear in its temperature argument: for
    every comfort level c of the enumeration and all integers t and k,
    adjust_for_comfort(t + k, c) = adjust_for_comfort(t, c) + k. *)
Theorem adjust_for_comfort_linear (t k : Z) (c : string) :
  In c comfort_levels ->
  exists v, adjust_for_comfort t c = Ok v
            /\ adjust_for_comfort (t + k) c = Ok (v + k).
Proof.
  intros Hc. apply comfort_levels_offset in Hc as [offset Hin].
  exists (t + offset). rewrite !(adjust_for_comfort_offset _ _ _ Hin).
  split; [reflexivity|]. f_equal. lia.
Qed.

Lemma adjust_for_comfort_linear_witness :
  exists v, adjust_for_comfort 61 "I run cold" = Ok v
            /\ adjust_for_comfort (61 + 10) "I run cold" = Ok (v + 10).
Proof.
  apply (adjust_for_comfort_linear 61 10 "I run cold"). simpl. tauto.
Defined.

(* ===================================================================== *)
(** ** generate_outfit                                                    *)
(* ===================================================================== *)

Lemma bottoms_styles (style : string) :
  In style styles <-> exists bottom, bottoms !! style = Some bottom.
Proof.
  split.
  - simpl. intros [<-|[<-|[<-|[<-|[]]]]]; eexists; reflexivity.
  - intros [bottom Hlk].
    apply dict_lookup_In in Hlk; [|by apply (bool_decide_unpack _)].
    apply (in_map fst) in Hlk. exact Hlk.
Qed.

(** The shape of every successful call: the bottom is the dict entry of
    the style, the top and the outer layer are fixed by the band. *)
Lemma generate_outfit_Ok (t : Z) (style bottom : string) :
  bottoms !! style = Some bottom ->
  exists top outer,
    generate_outfit t style = Ok (top, outer, bottom)
    /\ ((80 <= t /\ top = "light tank or breathable tee" /\ outer = "no jacket needed")
        \/ (70 <= t < 80 /\ top = "short-sleeve shirt" /\ outer = "optional light layer")
        \/ (60 <= t < 70 /\ top = "long-sleeve top" /\ outer = "light jacket or cardigan")
        \/ (t < 60 /\ top = "warm sweater" /\ outer = "jacket or coat")).
Proof.
  intros Hlk. unfold generate_outfit. rewrite (getitem_Some _ _ _ Hlk).
  destruct (Z.geb_spec t 80); [|destruct (Z.geb_spec t 70); [|destruct (Z.geb_spec t 60)]];
    eexists _, _; (split; [reflexivity|]); intuition lia.
Qed.

(** C1: for every integer adjusted_temp and every style of the
    enumeration, [generate_outfit] selects top and outer by four ordered
    bands: at least 80, "light tank or breathable tee" / "no jacket
    needed"; from 70 up to 80, "short-sleeve shirt" / "optional light
    layer"; from 60 up to 70, "long-sleeve top" / "light jacket or
    cardigan"; below 60, "warm sweater" / "jacket or coat". The
    boundaries 80, 70 and 60 belong to the higher band. *)
Theorem generate_outfit_bands (t : Z) (style : string) :
  In style styles ->
  exists bottom,
    (80 <= t -> generate_outfit t style
                = Ok ("light tank or breathable tee", "no jacket needed", bottom))
    /\ (70 <= t < 80 -> generate_outfit t style
                        = Ok ("short-sleeve shirt", "optional light layer", bottom))
    /\ (60 <= t < 70 -> generate_outfit t style
                        = Ok ("long-sleeve top", "light jacket or cardigan", bottom))
    /\ (t < 60 -> generate_outfit t style = Ok ("warm sweater", "jacket or coat", bottom))
    /\ generate_outfit 80 style
       = Ok ("light tank or breathable tee", "no jacket needed", bottom)
    /\ generate_outfit 70 style = Ok ("short-sleeve shirt", "optional light layer", bottom)
    /\ generate_outfit 60 style
       = Ok ("long-sleeve top", "light jacket or cardigan", bottom).
Proof.
  intros Hstyle. apply bottoms_styles in Hstyle as [bottom Hlk]. exists bottom.
  repeat split.
  1-4: intros Ht; destruct (generate_outfit_Ok t style bottom Hlk)
         as (top & outer & -> & [H|[H|[H|H]]]);
       destruct H as (Hband & -> & ->); (reflexivity || lia).
  all: unfold generate_outfit; by rewrite (getitem_Some _ _ _ Hlk).
Qed.

Lemma generate_outfit_bands_witness :
  exists bottom,
    (80 <= 70 -> generate_outfit 70 "Dressy"
                 = Ok ("light tank or breathable tee", "no jacket needed", bottom))
    /\ (70 <= 70 < 80 -> generate_outfit 70 "Dressy"
                         = Ok ("short-sleeve shirt", "optional light layer", bottom))
    /\ (60 <= 70 < 70 -> generate_outfit 70 "Dressy"
                         = Ok ("long-sleeve top", "light jacket or cardigan", bottom))
    /\ (70 < 60 -> generate_outfit 70 "Dressy" = Ok ("warm sweater", "jacket or coat", bottom))
    /\ generate_outfit 80 "Dressy"
       = Ok ("light tank or breathable tee", "no jacket needed", bottom)
    /\ generate_outfit 70 "Dressy" = Ok ("short-sleeve shirt", "optional light layer", bottom)
    /\ generate_outfit 60 "Dressy"
       = Ok ("long-sleeve top", "light jacket or cardigan", bottom).
Proof.
  apply (generate_outfit_bands 70 "Dressy"). simpl. tauto.
Defined.

(** C8: the bottom [generate_outfit] returns depends only on the style:
    for every style of the enumeration and any two integer temperatures
    t1 and t2, both calls succeed with the same bottom, the entry of the
    style in the bottoms table. *)
Theorem generate_outfit_bottom_by_style (t1 t2 : Z) (style : string) :
  In style styles ->
  exists bottom top1 outer1 top2 outer2,
    generate_outfit t1 style = Ok (top1, outer1, bottom)
    /\ generate_outfit t2 style = Ok (top2, outer2, bottom)
    /\ getitem bottoms style = Ok bottom.
Proof.
  intros Hstyle. apply bottoms_styles in Hstyle as [bottom Hlk].
  destruct (generate_outfit_Ok t1 style bottom Hlk) as (top1 & outer1 & H1 & _).
  destruct (generate_outfit_Ok t2 style bottom Hlk) as (top2 & outer2 & H2 & _).
  exists bottom, top1, outer1, top2, outer2.
  by rewrite (getitem_Some _ _ _ Hlk).
Qed.

Lemma generate_outfit_bottom_by_style_witness :
  exists bottom top1 outer1 top2 outer2,
    generate_outfit 85 "Sporty" = Ok (top1, outer1, bottom)
    /\ generate_outfit 40 "Sporty" = Ok (top2, outer2, bottom)
    /\ getitem bottoms "Sporty" = Ok bottom.
Proof.
  apply (generate_outfit_bottom_by_style 85 40 "Sporty"). simpl. tauto.
Defined.

(* ===================================================================== *)
(** ** shoe_suggestion                                                    *)
(* ===================================================================== *)

(** What the temperature alone selects, once rain is not "High". *)
Lemma shoe_suggestion_not_High (t : Z) (rain : string) :
  rain <> "High" ->
  (75 <= t /\ shoe_suggestion t rain = Ok "sandals or breathable sneakers")
  \/ (60 <= t < 75 /\ shoe_suggestion t rain = Ok "sneakers or flats")
  \/ (t < 60 /\ shoe_suggestion t rain = Ok "closed-toe shoes or boots").
Proof.
  intros Hrain. unfold shoe_suggestion.
  destruct (String.eqb_spec rain "High") as [|_]; [done|].
  destruct (Z.geb_spec t 75); [|destruct (Z.geb_spec t 60)];
    [left | right; left | right; right]; (split; [lia | reflexivity]).
Qed.

(** [shoe_suggestion] returns on every input. *)
Lemma shoe_suggestion_Ok (t : Z) (rain : string) :
  exists shoes, shoe_suggestion t rain = Ok shoes.
Proof.
  destruct (String.eqb_spec rain "High") as [->|Hrain]; [by eexists|].
  destruct (shoe_suggestion_not_High t rain Hrain) as [[_ ->]|[[_ ->]|[_ ->]]];
    by eexists.
Qed.

(** C2: for every integer adjusted_temp and rain chance among Low, Medium
    and High, [shoe_suggestion] returns "water-resistant shoes" when the
    rain chance is High, whatever the temperature; otherwise "sandals or
    breathable sneakers" from 75 up, "sneakers or flats" from 60 up to 75,
    and "closed-toe shoes or boots" below 60. *)
Theorem shoe_suggestion_priority (t : Z) (rain : string) :
  In rain ["Low"; "Medium"; "High"] ->
  (rain = "High" -> shoe_suggestion t rain = Ok "water-resistant shoes")
  /\ (rain <> "High" -> 75 <= t ->
      shoe_suggestion t rain = Ok "sandals or breathable sneakers")
  /\ (rain <> "High" -> 60 <= t < 75 -> shoe_suggestion t rain = Ok "sneakers or flats")
  /\ (rain <> "High" -> t < 60 -> shoe_suggestion t rain = Ok "closed-toe shoes or boots").
Proof.
  intros _. split; [intros ->; reflexivity|].
  repeat split; intros Hrain Ht;
    destruct (shoe_suggestion_not_High t rain Hrain) as [[? ->]|[[? ->]|[? ->]]];
    (reflexivity || lia).
Qed.

Lemma shoe_suggestion_priority_witness :
  shoe_suggestion 90 "High" = Ok "water-resistant shoes"
  /\ shoe_suggestion 75 "Low" = Ok "sandals or breathable sneakers"
  /\ shoe_suggestion 60 "Medium" = Ok "sneakers or flats"
  /\ shoe_suggestion 59 "Low" = Ok "closed-toe shoes or boots".
Proof.
  split; [|split; [|split]].
  - apply (shoe_suggestion_priority 90 "High"); [simpl; tauto | reflexivity].
  - apply (shoe_suggestion_priority 75 "Low"); [simpl; tauto | discriminate | lia].
  - apply (shoe_suggestion_priority 60 "Medium"); [simpl; tauto | discriminate | lia].
  - apply (shoe_suggestion_priority 59 "Low"); [simpl; tauto | discriminate | lia].
Defined.

(** On a string the untyped body is [App.shoe_suggestion]. *)
Lemma untyped_shoe_suggestion_Str (t : Z) (s : string) :
  Untyped.shoe_suggestion t (Untyped.Str s) = shoe_suggestion t s.
Proof.
  unfold Untyped.shoe_suggestion, shoe_suggestion. simpl.
  by destruct (String.eqb s "High").
Qed.

(** C10, as it is worded, fails: [shoe_suggestion] does not return for
    every rain value whatsoever. Its parameter is untyped, and on a numpy
    array of two strings the comparison with "High" is element-wise, so
    the [if] raises [ValueError] instead of falling through to the
    selection by temperature. *)
Lemma shoe_suggestion_raises_on_array :
  Untyped.shoe_suggestion 70 (Untyped.ndarray "Low" ["Medium"])
  = Raise (ValueError
             "The truth value of an array with more than one element is ambiguous. Use a.any() or a.all()")
  /\ ~ (forall (t : Z) (rain : Untyped.value),
          exists shoes, Untyped.shoe_suggestion t rain = Ok shoes).
Proof.
  split; [reflexivity|].
  intros Htotal. destruct (Htotal 70 (Untyped.ndarray "Low" ["Medium"])) as [shoes H].
  discriminate H.
Qed.

(** C10 (amended): [shoe_suggestion] never raises on a rain value whose
    comparison with "High" is a plain boolean: every string, inside or
    outside the three-valued enumeration, and also an int or [None]. Such
    a value, unless it is exactly the string "High", falls through to the
    selection by temperature and is treated exactly as Low and as Medium.
    On the strings the untyped body is the function the script calls. *)
Theorem shoe_suggestion_total_on_scalars (t : Z) (rain : Untyped.value) :
  Untyped.scalar rain ->
  (exists shoes, Untyped.shoe_suggestion t rain = Ok shoes)
  /\ (forall s, rain = Untyped.Str s ->
         Untyped.shoe_suggestion t rain = shoe_suggestion t s)
  /\ (rain <> Untyped.Str "High" ->
      Untyped.shoe_suggestion t rain = shoe_suggestion t "Low"
      /\ Untyped.shoe_suggestion t rain = shoe_suggestion t "Medium"
      /\ (75 <= t ->
          Untyped.shoe_suggestion t rain = Ok "sandals or breathable sneakers")
      /\ (60 <= t < 75 -> Untyped.shoe_suggestion t rain = Ok "sneakers or flats")
      /\ (t < 60 -> Untyped.shoe_suggestion t rain = Ok "closed-toe shoes or boots")).
Proof.
  intros Hscalar.
  assert (HLow : "Low" <> "High") by discriminate.
  assert (HMedium : "Medium" <> "High") by discriminate.
  assert (Hfall : forall s, s <> "High" ->
            shoe_suggestion t s = shoe_suggestion t "Low"
            /\ shoe_suggestion t s = shoe_suggestion t "Medium"
            /\ (75 <= t -> shoe_suggestion t s = Ok "sandals or breathable sneakers")
            /\ (60 <= t < 75 -> shoe_suggestion t s = Ok "sneakers or flats")
            /\ (t < 60 -> shoe_suggestion t s = Ok "closed-toe shoes or boots")).
  { intros s Hs.
    destruct (shoe_suggestion_not_High t s Hs) as [[? ->]|[[? ->]|[? ->]]];
      destruct (shoe_suggestion_not_High t "Low" HLow) as [[? ->]|[[? ->]|[? ->]]];
      try lia;
      destruct (shoe_suggestion_not_High t "Medium" HMedium) as [[? ->]|[[? ->]|[? ->]]];
      try lia;
      repeat split; intros; (reflexivity || lia). }
  assert (Hother : forall v, Untyped.equals v "High" = Untyped.Bool false ->
            Untyped.shoe_suggestion t v = shoe_suggestion t "Low").
  { intros v Hv. unfold Untyped.shoe_suggestion, shoe_suggestion. by rewrite Hv. }
  destruct rain as [s|n| |x xs]; [| | |destruct Hscalar].
  - rewrite untyped_shoe_suggestion_Str.
    split; [apply shoe_suggestion_Ok|]. split; [by intros s' [= <-]|].
    intros Hs. apply Hfall. by intros ->.
  - rewrite (Hother (Untyped.Int n)) by reflexivity.
    split; [apply shoe_suggestion_Ok|]. split; [by intros s' [=]|].
    intros _. by apply Hfall.
  - rewrite (Hother Untyped.NoneValue) by reflexivity.
    split; [apply shoe_suggestion_Ok|]. split; [by intros s' [=]|].
    intros _. by apply Hfall.
Qed.

Lemma shoe_suggestion_total_on_scalars_witness :
  (exists shoes, Untyped.shoe_suggestion 72 (Untyped.Str "Torrential") = Ok shoes)
  /\ Untyped.shoe_suggestion 72 (Untyped.Str "Torrential")
     = shoe_suggestion 72 "Torrential"
  /\ Untyped.shoe_suggestion 72 (Untyped.Str "Torrential") = shoe_suggestion 72 "Low"
  /\ Untyped.shoe_suggestion 72 (Untyped.Str "Torrential") = shoe_suggestion 72 "Medium"
  /\ Untyped.shoe_suggestion 72 (Untyped.Str "Torrential") = Ok "sneakers or flats".
Proof.
  destruct (shoe_suggestion_total_on_scalars 72 (Untyped.Str "Torrential"))
    as (Htotal & Hstr & Hfall); [exact I|].
  destruct Hfall as (HLow & HMedium & _ & Hband & _); [discriminate|].
  split; [exact Htotal|]. split; [by apply Hstr|].
  split; [exact HLow|]. split; [exact HMedium | apply Hband; lia].
Defined.

(* ===================================================================== *)
(** ** Keys outside the tables                                            *)
(* ===================================================================== *)

(** C5, as the specification words it, fails: the functions raise no
    error named UnknownCityError, UnknownComfortLevelError or
    UnknownStyleError. On the key "Boston", which is in none of the three
    tables, all three raise one and the same exception, Python's
    [KeyError] carrying the key. *)
Lemma unknown_key_error_is_KeyError :
  exists e,
    get_mock_weather "Boston" (seeded (fun _ => 0)) = (Raise e, seeded (fun _ => 0))
    /\ adjust_for_comfort 70 "Boston" = Raise e
    /\ generate_outfit 70 "Boston" = Raise e
    /\ e = KeyError "Boston"
    /\ class_name e <> Spec.UnknownCityError
    /\ class_name e <> Spec.UnknownComfortLevelError
    /\ class_name e <> Spec.UnknownStyleError.
Proof.
  exists (KeyError "Boston"). repeat split; try discriminate.
Qed.

(** C5 (amended): when a lookup key falls outside its fixed table, each
    function raises Python's [KeyError] carrying that key, and nothing
    else happens: [get_mock_weather] raises it for a city outside the
    four cities before it draws anything from the random source,
    [adjust_for_comfort] for a comfort level outside its five levels, and
    [generate_outfit] for a style outside the four styles, at every
    temperature. *)
Theorem unknown_key_raises_KeyError
    (city comfort style : string) (t : Z) (rs : RandomState) :
  (~ In city cities -> get_mock_weather city rs = (Raise (KeyError city), rs))
  /\ (~ In comfort comfort_levels ->
      adjust_for_comfort t comfort = Raise (KeyError comfort))
  /\ (~ In style styles -> generate_outfit t style = Raise (KeyError style)).
Proof.
  repeat split; intros Hout.
  - unfold get_mock_weather, base, mbind, M_bind, pure.
    by rewrite getitem_fresh.
  - unfold adjust_for_comfort, adjustments. by rewrite getitem_fresh.
  - unfold generate_outfit, bottoms. rewrite getitem_fresh by done.
    by repeat case_match.
Qed.

Lemma unknown_key_raises_KeyError_witness :
  get_mock_weather "Boston" (seeded (fun _ => 3))
  = (Raise (KeyError "Boston"), seeded (fun _ => 3))
  /\ adjust_for_comfort 64 "I am fine" = Raise (KeyError "I am fine")
  /\ generate_outfit 64 "Formal" = Raise (KeyError "Formal").
Proof.
  destruct (unknown_key_raises_KeyError "Boston" "I am fine" "Formal" 64
              (seeded (fun _ => 3))) as (Hcity & Hcomfort & Hstyle).
  split; [|split]; [apply Hcity | apply Hcomfort | apply Hstyle];
    simpl; intuition discriminate.
Defined.

(* ===================================================================== *)
(** ** The call chain of the Outfit Planner page                          *)
(* ===================================================================== *)

(** C9: for Chicago (low 55, high 68), comfort level "I am freezing all
    the time" (offset -6) and the perturbation drawn as 0,
    [get_mock_weather] yields feels_like = 61, [adjust_for_comfort] yields
    55, and [generate_outfit] yields top "warm sweater" and outer "jacket
    or coat", with bottom "jeans" for style Casual; the page's call chain
    produces exactly these values. *)
Theorem chicago_freezing_casual (rs rs1 : RandomState) (show_shoes : bool) :
  randint (-2) 3 rs = (Ok 0, rs1) ->
  exists w rs2 p,
    get_mock_weather "Chicago" rs = (Ok w, rs2)
    /\ low w = 55 /\ high w = 68 /\ feels_like w = 61
    /\ adjust_for_comfort (feels_like w) "I am freezing all the time" = Ok 55
    /\ generate_outfit 55 "Casual" = Ok ("warm sweater", "jacket or coat", "jeans")
    /\ outfit_planner "Chicago" "Casual" "I am freezing all the time" show_shoes rs
       = (Ok p, rs2)
    /\ plan_weather p = w
    /\ plan_adjusted_temp p = 55
    /\ plan_outfit p = ("warm sweater", "jacket or coat", "jeans").
Proof.
  intros Hdraw.
  destruct (get_mock_weather_run "Chicago" 55 68 rs)
    as (p & rain & rs1' & rs2 & Hp & _ & Hrun); [simpl; tauto|].
  rewrite Hdraw in Hp. injection Hp as <- <-.
  change ((55 + 68) / 2 + 0) with 61 in Hrun.
  destruct (shoe_suggestion_Ok 55 rain) as [shoes Hshoes].
  exists (mkWeather 55 68 61 rain), rs2,
    (mkPlan (mkWeather 55 68 61 rain) 55 ("warm sweater", "jacket or coat", "jeans")
       (if show_shoes then Some shoes else None)).
  split; [exact Hrun|]. repeat split.
  unfold outfit_planner, mbind, M_bind, pure. rewrite Hrun. cbv beta iota zeta.
  change (feels_like (mkWeather 55 68 61 rain)) with 61.
  change (adjust_for_comfort 61 "I am freezing all the time") with (@Ok Z 55).
  cbv beta iota zeta.
  change (generate_outfit 55 "Casual")
    with (@Ok (string * string * string) ("warm sweater", "jacket or coat", "jeans")).
  cbv beta iota zeta.
  destruct show_shoes; [|reflexivity].
  change (rain_chance (mkWeather 55 68 61 rain)) with rain. by rewrite Hshoes.
Qed.

Lemma chicago_freezing_casual_witness :
  exists w rs2 p,
    get_mock_weather "Chicago" (seeded (fun _ => 2)) = (Ok w, rs2)
    /\ low w = 55 /\ high w = 68 /\ feels_like w = 61
    /\ adjust_for_comfort (feels_like w) "I am freezing all the time" = Ok 55
    /\ generate_outfit 55 "Casual" = Ok ("warm sweater", "jacket or coat", "jeans")
    /\ outfit_planner "Chicago" "Casual" "I am freezing all the time" true
         (seeded (fun _ => 2))
       = (Ok p, rs2)
    /\ plan_weather p = w
    /\ plan_adjusted_temp p = 55
    /\ plan_outfit p = ("warm sweater", "jacket or coat", "jeans").
Proof.
  apply (chicago_freezing_casual (seeded (fun _ => 2)) (advance (seeded (fun _ => 2))) true).
  reflexivity.
Defined.

(* ===================================================================== *)
(** ** Further properties of the helper functions                         *)
(* ===================================================================== *)

(** A refinement of [get_mock_weather_run]: the two draws are the next
    two raw values of the generator, which is left two draws further. *)
Lemma get_mock_weather_draws (city : string) (lo hi : Z) (rs : RandomState) :
  In (city, (lo, hi)) Spec.city_table ->
  get_mock_weather city rs
  = (Ok (mkWeather lo hi
           ((lo + hi) / 2 + (-2 + entropy rs (consumed rs) mod 5))
           (nth (Z.to_nat (entropy rs (S (consumed rs)) mod 3)) rain_chances "Low")),
     advance (advance rs)).
Proof.
  intros Hin.
  destruct (get_mock_weather_run city lo hi rs Hin)
    as (p & rain & rs1 & rs2 & Hp & Hrain & Hrun).
  rewrite randint_Ok in Hp by lia. injection Hp as <- <-.
  unfold choice, rain_chances, next_raw in Hrain. cbv beta iota zeta in Hrain.
  injection Hrain as <- <-. exact Hrun.
Qed.

Lemma cities_city_table (city : string) :
  In city cities <-> exists lo hi, In (city, (lo, hi)) Spec.city_table.
Proof.
  split.
  - simpl. intros [<-|[<-|[<-|[<-|[]]]]]; eexists _, _; simpl; eauto 6.
  - intros (lo & hi & Hin). apply (in_map fst) in Hin. exact Hin.
Qed.

(** X1: for every city of the table and every state of the generator,
    the perceived temperature of the reading lies between the city's low
    and high. *)
Theorem get_mock_weather_feels_like_between_low_and_high
    (city : string) (rs : RandomState) :
  In city cities ->
  exists w rs',
    get_mock_weather city rs = (Ok w, rs')
    /\ low w <= feels_like w <= high w.
Proof.
  intros Hcity. apply cities_city_table in Hcity as (lo & hi & Hin).
  rewrite (get_mock_weather_draws _ _ _ _ Hin). eexists _, _. split; [reflexivity|].
  cbn [low high feels_like].
  pose proof (Z.mod_pos_bound (entropy rs (consumed rs)) 5).
  simpl in Hin. destruct Hin as [H'|[H'|[H'|[H'|[]]]]]; injection H' as <- <- <-;
    change ((75 + 85) / 2) with 80; change ((60 + 72) / 2) with 66;
    change ((55 + 68) / 2) with 61; change ((65 + 78) / 2) with 71; lia.
Qed.

Lemma get_mock_weather_feels_like_between_low_and_high_witness :
  exists w rs',
    get_mock_weather "New York" (seeded (fun n => Z.of_nat n)) = (Ok w, rs')
    /\ low w <= feels_like w <= high w.
Proof.
  apply (get_mock_weather_feels_like_between_low_and_high "New York").
  simpl. tauto.
Defined.

(** X2: on a city of the table [get_mock_weather] takes exactly two draws
    from the generator, and its reading depends on nothing but the city
    and the two raw values drawn. *)
Theorem get_mock_weather_takes_two_draws (city : string) (rs rs' : RandomState) :
  In city cities ->
  snd (get_mock_weather city rs) = advance (advance rs)
  /\ (entropy rs (consumed rs) = entropy rs' (consumed rs') ->
      entropy rs (S (consumed rs)) = entropy rs' (S (consumed rs')) ->
      fst (get_mock_weather city rs) = fst (get_mock_weather city rs')).
Proof.
  intros Hcity. apply cities_city_table in Hcity as (lo & hi & Hin).
  rewrite !(get_mock_weather_draws _ _ _ _ Hin). split; [reflexivity|].
  intros -> ->. reflexivity.
Qed.

Lemma get_mock_weather_takes_two_draws_witness :
  snd (get_mock_weather "Miami" (seeded (fun n => Z.of_nat n)))
  = advance (advance (seeded (fun n => Z.of_nat n)))
  /\ fst (get_mock_weather "Miami" (seeded (fun n => Z.of_nat n)))
     = fst (get_mock_weather "Miami" (mkRandomState (fun n => Z.of_nat n mod 7) 0)).
Proof.
  destruct (get_mock_weather_takes_two_draws "Miami" (seeded (fun n => Z.of_nat n))
              (mkRandomState (fun n => Z.of_nat n mod 7) 0)) as [Hsnd Hfst].
  - simpl. tauto.
  - split; [exact Hsnd | apply Hfst; reflexivity].
Defined.

(** X3: for every city of the table, each of the fifteen combinations of
    a perturbation among -2..2 and a rain chance among Low, Medium, High
    is the reading of some state of the generator. *)
Theorem get_mock_weather_every_outcome
    (city : string) (lo hi p : Z) (rain : string) :
  In (city, (lo, hi)) Spec.city_table ->
  -2 <= p <= 2 ->
  In rain rain_chances ->
  exists rs rs',
    get_mock_weather city rs = (Ok (mkWeather lo hi ((lo + hi) / 2 + p) rain), rs').
Proof.
  intros Hin Hp Hrain.
  assert (exists i, 0 <= i < 3 /\ nth (Z.to_nat i) rain_chances "Low" = rain)
    as (i & Hi & Hnth).
  { simpl in Hrain. destruct Hrain as [<-|[<-|[<-|[]]]];
      [exists 0 | exists 1 | exists 2]; (split; [lia | reflexivity]). }
  exists (seeded (fun n => match n with O => p + 2 | _ => i end)). eexists.
  rewrite (get_mock_weather_draws _ _ _ _ Hin). cbn [entropy consumed seeded].
  rewrite !Z.mod_small by lia. rewrite Hnth. do 3 f_equal. lia.
Qed.

Lemma get_mock_weather_every_outcome_witness :
  exists rs rs',
    get_mock_weather "Chicago" rs = (Ok (mkWeather 55 68 ((55 + 68) / 2 + -2) "Medium"), rs').
Proof.
  apply (get_mock_weather_every_outcome "Chicago" 55 68 (-2) "Medium");
    [simpl; tauto | lia | simpl; tauto].
Defined.

(** X4: for every comfort level of the enumeration the adjusted
    temperature is within six degrees of the perceived one. *)
Theorem adjust_for_comfort_within_six (feels : Z) (comfort : string) :
  In comfort comfort_levels ->
  exists adjusted,
    adjust_for_comfort feels comfort = Ok adjusted
    /\ feels - 6 <= adjusted <= feels + 6.
Proof.
  intros Hc. apply comfort_levels_offset in Hc as [offset Hin].
  exists (feels + offset). split; [by apply adjust_for_comfort_offset|].
  simpl in Hin. destruct Hin as [H|[H|[H|[H|[H|[]]]]]]; injection H as <- <-; lia.
Qed.

Lemma adjust_for_comfort_within_six_witness :
  exists adjusted,
    adjust_for_comfort 71 "I am a furnace" = Ok adjusted
    /\ 71 - 6 <= adjusted <= 71 + 6.
Proof.
  apply (adjust_for_comfort_within_six 71 "I am a furnace"). simpl. tauto.
Defined.

(** X5: the comfort scale is symmetric: adjusting by a level and then by
    the level at the mirrored position of the enumeration (furnace and
    freezing, warm and cold, normal and itself) gives back the
    temperature one started from. *)
Theorem adjust_for_comfort_mirror_cancels (t : Z) (c c' : string) :
  In (c, c') (combine comfort_levels (rev comfort_levels)) ->
  adjust_for_comfort t c ≫= (fun v => adjust_for_comfort v c') = Ok t.
Proof.
  simpl. intros [H|[H|[H|[H|[H|[]]]]]]; injection H as <- <-.
  - rewrite (adjust_for_comfort_offset t _ 6) by (simpl; tauto). simpl.
    rewrite (adjust_for_comfort_offset _ _ (-6)) by (simpl; tauto). f_equal. lia.
  - rewrite (adjust_for_comfort_offset t _ 3) by (simpl; tauto). simpl.
    rewrite (adjust_for_comfort_offset _ _ (-3)) by (simpl; tauto). f_equal. lia.
  - rewrite (adjust_for_comfort_offset t _ 0) by (simpl; tauto). simpl.
    rewrite (adjust_for_comfort_offset _ _ 0) by (simpl; tauto). f_equal. lia.
  - rewrite (adjust_for_comfort_offset t _ (-3)) by (simpl; tauto). simpl.
    rewrite (adjust_for_comfort_offset _ _ 3) by (simpl; tauto). f_equal. lia.
  - rewrite (adjust_for_comfort_offset t _ (-6)) by (simpl; tauto). simpl.
    rewrite (adjust_for_comfort_offset _ _ 6) by (simpl; tauto). f_equal. lia.
Qed.

Lemma adjust_for_comfort_mirror_cancels_witness :
  adjust_for_comfort 64 "I run warm" ≫= (fun v => adjust_for_comfort v "I run cold")
  = Ok 64.
Proof.
  apply (adjust_for_comfort_mirror_cancels 64 "I run warm" "I run cold").
  simpl. tauto.
Defined.

(** X6: the comfort levels are offered from the warmest adjustment to the
    coldest: of two levels, the one earlier in the enumeration gives the
    strictly higher adjusted temperature. *)
Theorem comfort_levels_strictly_decreasing (t : Z) (i j : nat) (c c' : string) :
  comfort_levels !! i = Some c ->
  comfort_levels !! j = Some c' ->
  (i < j)%nat ->
  exists v v',
    adjust_for_comfort t c = Ok v
    /\ adjust_for_comfort t c' = Ok v'
    /\ v' < v.
Proof.
  intros Hi Hj Hlt.
  assert (Hc : In c comfort_levels)
    by (apply list_elem_of_In, list_elem_of_lookup; eauto).
  assert (Hc' : In c' comfort_levels)
    by (apply list_elem_of_In, list_elem_of_lookup; eauto).
  apply comfort_levels_offset in Hc as [o Ho].
  apply comfort_levels_offset in Hc' as [o' Ho'].
  exists (t + o), (t + o').
  rewrite (adjust_for_comfort_offset _ _ _ Ho), (adjust_for_comfort_offset _ _ _ Ho').
  split; [reflexivity|]. split; [reflexivity|].
  destruct i as [|[|[|[|[|i]]]]]; simpl in Hi; try discriminate;
    injection Hi as <-;
    (destruct j as [|[|[|[|[|j]]]]]; simpl in Hj; try discriminate; try lia;
     injection Hj as <-);
    simpl in Ho, Ho'; intuition (simplify_eq; lia).
Qed.

Lemma comfort_levels_strictly_decreasing_witness :
  exists v v',
    adjust_for_comfort 70 "I run warm" = Ok v
    /\ adjust_for_comfort 70 "I am freezing all the time" = Ok v'
    /\ v' < v.
Proof.
  apply (comfort_levels_strictly_decreasing 70 1 4); [reflexivity | reflexivity | lia].
Defined.

(** The style of a successful call is a key of the bottoms table. *)
Lemma generate_outfit_Ok_inv (t : Z) (style top outer bottom : string) :
  generate_outfit t style = Ok (top, outer, bottom) ->
  bottoms !! style = Some bottom.
Proof.
  unfold generate_outfit, getitem.
  destruct (bottoms !! style) as [b|];
    destruct (t >=? 80), (t >=? 70), (t >=? 60); cbn;
    unfold mret, result_ret; intros Hrun; congruence.
Qed.

(** X7: the top and the outer layer depend only on the temperature: at
    one temperature any two styles of the enumeration get the same top
    and the same outer layer. *)
Theorem generate_outfit_top_outer_by_temperature (t : Z) (style1 style2 : string) :
  In style1 styles ->
  In style2 styles ->
  exists top outer bottom1 bottom2,
    generate_outfit t style1 = Ok (top, outer, bottom1)
    /\ generate_outfit t style2 = Ok (top, outer, bottom2).
Proof.
  intros H1 H2.
  apply bottoms_styles in H1 as [b1 H1]. apply bottoms_styles in H2 as [b2 H2].
  destruct (generate_outfit_Ok t style1 b1 H1) as (top & outer & Hrun1 & Hband1).
  destruct (generate_outfit_Ok t style2 b2 H2) as (top' & outer' & Hrun2 & Hband2).
  exists top, outer, b1, b2. split; [exact Hrun1|]. rewrite Hrun2.
  destruct Hband1 as [H|[H|[H|H]]]; destruct H as (Ht & -> & ->);
    destruct Hband2 as [H|[H|[H|H]]]; destruct H as (Ht' & -> & ->);
    (reflexivity || lia).
Qed.

Lemma generate_outfit_top_outer_by_temperature_witness :
  exists top outer bottom1 bottom2,
    generate_outfit 66 "Cozy" = Ok (top, outer, bottom1)
    /\ generate_outfit 66 "Sporty" = Ok (top, outer, bottom2).
Proof.
  apply (generate_outfit_top_outer_by_temperature 66 "Cozy" "Sporty"); simpl; tauto.
Defined.

(** X8: whatever [generate_outfit] returns is one of four fixed pairings
    of top and outer layer (a top never comes with the outer layer of
    another band), with the bottom that belongs to the style. *)
Theorem generate_outfit_pairings (t : Z) (style top outer bottom : string) :
  generate_outfit t style = Ok (top, outer, bottom) ->
  In (top, outer)
    [("light tank or breathable tee", "no jacket needed");
     ("short-sleeve shirt", "optional light layer");
     ("long-sleeve top", "light jacket or cardigan");
     ("warm sweater", "jacket or coat")]
  /\ In (style, bottom)
       [("Cozy", "soft pants or leggings"); ("Casual", "jeans");
        ("Dressy", "tailored pants or skirt"); ("Sporty", "athletic bottoms")].
Proof.
  intros Hrun. pose proof (generate_outfit_Ok_inv _ _ _ _ _ Hrun) as Hlk.
  destruct (generate_outfit_Ok t style bottom Hlk) as (top' & outer' & Hrun' & Hband).
  rewrite Hrun in Hrun'. injection Hrun' as <- <-. split.
  - destruct Hband as [H|[H|[H|H]]]; destruct H as (_ & -> & ->); simpl; tauto.
  - apply (dict_lookup_In _ style bottom) in Hlk; [exact Hlk|].
    by apply (bool_decide_unpack _).
Qed.

Lemma generate_outfit_pairings_witness :
  In ("short-sleeve shirt", "optional light layer")
    [("light tank or breathable tee", "no jacket needed");
     ("short-sleeve shirt", "optional light layer");
     ("long-sleeve top", "light jacket or cardigan");
     ("warm sweater", "jacket or coat")]
  /\ In ("Casual", "jeans")
       [("Cozy", "soft pants or leggings"); ("Casual", "jeans");
        ("Dressy", "tailored pants or skirt"); ("Sporty", "athletic bottoms")].
Proof.
  apply (generate_outfit_pairings 74 "Casual"). reflexivity.
Defined.

(** X9: every recommendation covers an unbroken range of temperatures:
    when two temperatures get the same outfit (the same shoes), so does
    every temperature between them. *)
Theorem recommendations_cover_intervals (t1 t2 t3 : Z) (style rain : string) :
  t1 <= t2 <= t3 ->
  (generate_outfit t1 style = generate_outfit t3 style ->
   generate_outfit t2 style = generate_outfit t1 style)
  /\ (shoe_suggestion t1 rain = shoe_suggestion t3 rain ->
      shoe_suggestion t2 rain = shoe_suggestion t1 rain).
Proof.
  intros Ht. split.
  - destruct (bottoms !! style) as [bottom|] eqn:Hlk.
    + destruct (generate_outfit_Ok t1 style bottom Hlk) as (? & ? & -> & [Hb|[Hb|[Hb|Hb]]]);
        destruct Hb as (? & -> & ->);
        destruct (generate_outfit_Ok t2 style bottom Hlk) as (? & ? & -> & [Hb|[Hb|[Hb|Hb]]]);
        destruct Hb as (? & -> & ->);
        destruct (generate_outfit_Ok t3 style bottom Hlk) as (? & ? & -> & [Hb|[Hb|[Hb|Hb]]]);
        destruct Hb as (? & -> & ->);
        intros Heq; first [reflexivity | lia | discriminate].
    + intros _. unfold generate_outfit, getitem. rewrite Hlk. by repeat case_match.
  - destruct (String.eqb_spec rain "High") as [->|Hrain]; [reflexivity|].
    destruct (shoe_suggestion_not_High t1 rain Hrain) as [[? ->]|[[? ->]|[? ->]]];
      destruct (shoe_suggestion_not_High t2 rain Hrain) as [[? ->]|[[? ->]|[? ->]]];
      destruct (shoe_suggestion_not_High t3 rain Hrain) as [[? ->]|[[? ->]|[? ->]]];
      intros Heq; first [reflexivity | lia | discriminate].
Qed.

Lemma recommendations_cover_intervals_witness :
  generate_outfit 65 "Cozy" = generate_outfit 61 "Cozy"
  /\ shoe_suggestion 65 "Low" = shoe_suggestion 61 "Low".
Proof.
  destruct (recommendations_cover_intervals 61 65 69 "Cozy" "Low") as [Houtfit Hshoes];
    [lia|].
  split; [apply Houtfit | apply Hshoes]; reflexivity.
Defined.

(** X10: water-resistant shoes are suggested exactly when the rain value
    is the string "High", at every temperature. *)
Theorem shoe_suggestion_water_resistant_iff_High (t : Z) (rain : string) :
  shoe_suggestion t rain = Ok "water-resistant shoes" <-> rain = "High".
Proof.
  split; [|intros ->; reflexivity].
  destruct (String.eqb_spec rain "High") as [->|Hrain]; [done|].
  destruct (shoe_suggestion_not_High t rain Hrain) as [[? ->]|[[? ->]|[? ->]]];
    discriminate.
Qed.

(** X11: at one adjusted temperature the shoes fit the outfit: sandals
    only come with a tank or a short-sleeve shirt, boots only with the
    warm sweater and the jacket or coat, sneakers or flats only with a
    short-sleeve shirt or a long-sleeve top; and with a tank the shoes
    are sandals, with a warm sweater boots, unless rain makes them
    water-resistant. *)
Theorem shoes_fit_outfit (t : Z) (style rain top outer bottom shoes : string) :
  generate_outfit t style = Ok (top, outer, bottom) ->
  shoe_suggestion t rain = Ok shoes ->
  (shoes = "sandals or breathable sneakers" ->
   top = "light tank or breathable tee" \/ top = "short-sleeve shirt")
  /\ (shoes = "closed-toe shoes or boots" ->
      top = "warm sweater" /\ outer = "jacket or coat")
  /\ (shoes = "sneakers or flats" ->
      top = "short-sleeve shirt" \/ top = "long-sleeve top")
  /\ (top = "light tank or breathable tee" ->
      shoes = "sandals or breathable sneakers" \/ shoes = "water-resistant shoes")
  /\ (top = "warm sweater" ->
      shoes = "closed-toe shoes or boots" \/ shoes = "water-resistant shoes").
Proof.
  intros Houtfit Hshoes.
  pose proof (generate_outfit_Ok_inv _ _ _ _ _ Houtfit) as Hlk.
  destruct (generate_outfit_Ok t style bottom Hlk) as (top' & outer' & Hrun & Hband).
  rewrite Houtfit in Hrun. injection Hrun as <- <-.
  destruct (String.eqb_spec rain "High") as [->|Hrain].
  - injection Hshoes as <-.
    repeat split; intros; (discriminate || tauto).
  - destruct (shoe_suggestion_not_High t rain Hrain) as [[? Hs]|[[? Hs]|[? Hs]]];
      rewrite Hs in Hshoes; injection Hshoes as <-;
      destruct Hband as [H'|[H'|[H'|H']]]; destruct H' as (? & -> & ->);
      try lia; repeat split; intros; (discriminate || tauto).
Qed.

Lemma shoes_fit_outfit_witness :
  ("sandals or breathable sneakers" = "sandals or breathable sneakers" ->
   "short-sleeve shirt" = "light tank or breathable tee"
   \/ "short-sleeve shirt" = "short-sleeve shirt")
  /\ ("sandals or breathable sneakers" = "closed-toe shoes or boots" ->
      "short-sleeve shirt" = "warm sweater" /\ "optional light layer" = "jacket or coat")
  /\ ("sandals or breathable sneakers" = "sneakers or flats" ->
      "short-sleeve shirt" = "short-sleeve shirt" \/ "short-sleeve shirt" = "long-sleeve top")
  /\ ("short-sleeve shirt" = "light tank or breathable tee" ->
      "sandals or breathable sneakers" = "sandals or breathable sneakers"
      \/ "sandals or breathable sneakers" = "water-resistant shoes")
  /\ ("short-sleeve shirt" = "warm sweater" ->
      "sandals or breathable sneakers" = "closed-toe shoes or boots"
      \/ "sandals or breathable sneakers" = "water-resistant shoes").
Proof.
  apply (shoes_fit_outfit 77 "Dressy" "Medium" "short-sleeve shirt"
           "optional light layer" "tailored pants or skirt"
           "sandals or breathable sneakers"); reflexivity.
Defined.

(* ===================================================================== *)
(** ** Further properties of the call chain                               *)
(* ===================================================================== *)

Lemma adjust_for_comfort_unknown (t : Z) (comfort : string) :
  ~ In comfort comfort_levels ->
  adjust_for_comfort t comfort = Raise (KeyError comfort).
Proof.
  intros Hout. unfold adjust_for_comfort, adjustments. by rewrite getitem_fresh.
Qed.

Lemma generate_outfit_unknown (t : Z) (style : string) :
  ~ In style styles -> generate_outfit t style = Raise (KeyError style).
Proof.
  intros Hout. unfold generate_outfit, bottoms. rewrite getitem_fresh by done.
  destruct (t >=? 80), (t >=? 70), (t >=? 60); reflexivity.
Qed.

(** One run of the call chain on keys of the three tables. *)
Lemma outfit_planner_run
    (city style comfort bottom : string) (lo hi offset : Z) (show : bool)
    (rs : RandomState) :
  In (city, (lo, hi)) Spec.city_table ->
  In (comfort, offset) Spec.offset_table ->
  bottoms !! style = Some bottom ->
  exists p rain top outer shoes,
    -2 <= p <= 2
    /\ get_mock_weather city rs
       = (Ok (mkWeather lo hi ((lo + hi) / 2 + p) rain), advance (advance rs))
    /\ generate_outfit ((lo + hi) / 2 + p + offset) style = Ok (top, outer, bottom)
    /\ shoe_suggestion ((lo + hi) / 2 + p + offset) rain = Ok shoes
    /\ outfit_planner city style comfort show rs
       = (Ok (mkPlan (mkWeather lo hi ((lo + hi) / 2 + p) rain)
                ((lo + hi) / 2 + p + offset) (top, outer, bottom)
                (if show then Some shoes else None)),
          advance (advance rs)).
Proof.
  intros Hcity Hcomfort Hstyle.
  pose proof (get_mock_weather_draws city lo hi rs Hcity) as Hrun.
  set (p := -2 + entropy rs (consumed rs) mod 5) in *.
  set (rain := nth _ rain_chances "Low") in *.
  destruct (generate_outfit_Ok ((lo + hi) / 2 + p + offset) style bottom Hstyle)
    as (top & outer & Houtfit & _).
  destruct (shoe_suggestion_Ok ((lo + hi) / 2 + p + offset) rain) as [shoes Hshoes].
  exists p, rain, top, outer, shoes.
  split; [pose proof (Z.mod_pos_bound (entropy rs (consumed rs)) 5); lia|].
  split; [exact Hrun|]. split; [exact Houtfit|]. split; [exact Hshoes|].
  unfold outfit_planner, mbind, M_bind, pure. rewrite Hrun. cbv beta iota zeta.
  cbn [feels_like rain_chance].
  rewrite (adjust_for_comfort_offset _ _ _ Hcomfort), Houtfit.
  destruct show; [by rewrite Hshoes | reflexivity].
Qed.

(** X12: on values of the three option lists the call chain never
    raises: it takes two draws and returns a plan whose adjusted
    temperature, outfit and shoes are those of the helper functions on the
    reading it holds, the shoes being present exactly when asked for. *)
Theorem outfit_planner_succeeds
    (city style comfort : string) (show : bool) (rs : RandomState) :
  In city cities ->
  In style styles ->
  In comfort comfort_levels ->
  exists p,
    outfit_planner city style comfort show rs = (Ok p, advance (advance rs))
    /\ fst (get_mock_weather city rs) = Ok (plan_weather p)
    /\ adjust_for_comfort (feels_like (plan_weather p)) comfort
       = Ok (plan_adjusted_temp p)
    /\ generate_outfit (plan_adjusted_temp p) style = Ok (plan_outfit p)
    /\ (if show
        then exists shoes,
            plan_shoes p = Some shoes
            /\ shoe_suggestion (plan_adjusted_temp p) (rain_chance (plan_weather p))
               = Ok shoes
        else plan_shoes p = None).
Proof.
  intros Hcity Hstyle Hcomfort.
  apply cities_city_table in Hcity as (lo & hi & Hcity).
  apply comfort_levels_offset in Hcomfort as (offset & Hcomfort).
  apply bottoms_styles in Hstyle as (bottom & Hstyle).
  destruct (outfit_planner_run city style comfort bottom lo hi offset show rs
              Hcity Hcomfort Hstyle)
    as (p & rain & top & outer & shoes & _ & Hw & Houtfit & Hshoes & Hrun).
  eexists. split; [exact Hrun|]. cbn [plan_weather plan_adjusted_temp plan_outfit
                                      plan_shoes feels_like rain_chance].
  rewrite Hw. split; [reflexivity|].
  split; [by apply adjust_for_comfort_offset|]. split; [exact Houtfit|].
  destruct show; eauto.
Qed.

Lemma outfit_planner_succeeds_witness :
  exists p,
    outfit_planner "Los Angeles" "Sporty" "I run warm" true (seeded (fun _ => 7))
    = (Ok p, advance (advance (seeded (fun _ => 7))))
    /\ fst (get_mock_weather "Los Angeles" (seeded (fun _ => 7))) = Ok (plan_weather p)
    /\ adjust_for_comfort (feels_like (plan_weather p)) "I run warm"
       = Ok (plan_adjusted_temp p)
    /\ generate_outfit (plan_adjusted_temp p) "Sporty" = Ok (plan_outfit p)
    /\ (exists shoes,
           plan_shoes p = Some shoes
           /\ shoe_suggestion (plan_adjusted_temp p) (rain_chance (plan_weather p))
              = Ok shoes).
Proof.
  apply (outfit_planner_succeeds "Los Angeles" "Sporty" "I run warm" true);
    simpl; tauto.
Defined.

(** X13: the call chain fails on the first key that is outside its
    table, in the order city, comfort level, style: an unknown city
    raises its [KeyError] before anything is drawn; an unknown comfort
    level, and after it an unknown style, raises only after the reading
    has been generated, two draws later. *)
Theorem outfit_planner_first_unknown_key
    (city style comfort : string) (show : bool) (rs : RandomState) :
  (~ In city cities ->
   outfit_planner city style comfort show rs = (Raise (KeyError city), rs))
  /\ (In city cities -> ~ In comfort comfort_levels ->
      outfit_planner city style comfort show rs
      = (Raise (KeyError comfort), advance (advance rs)))
  /\ (In city cities -> In comfort comfort_levels -> ~ In style styles ->
      outfit_planner city style comfort show rs
      = (Raise (KeyError style), advance (advance rs))).
Proof.
  split; [|split].
  - intros Hcity.
    unfold outfit_planner, get_mock_weather, base, mbind, M_bind, pure.
    by rewrite getitem_fresh.
  - intros Hcity Hcomfort. apply cities_city_table in Hcity as (lo & hi & Hcity).
    unfold outfit_planner, mbind, M_bind, pure.
    rewrite (get_mock_weather_draws _ _ _ _ Hcity). cbv beta iota zeta.
    by rewrite adjust_for_comfort_unknown.
  - intros Hcity Hcomfort Hstyle. apply cities_city_table in Hcity as (lo & hi & Hcity).
    apply comfort_levels_offset in Hcomfort as (offset & Hcomfort).
    unfold outfit_planner, mbind, M_bind, pure.
    rewrite (get_mock_weather_draws _ _ _ _ Hcity). cbv beta iota zeta.
    rewrite (adjust_for_comfort_offset _ _ _ Hcomfort).
    by rewrite generate_outfit_unknown.
Qed.

Lemma outfit_planner_first_unknown_key_witness :
  outfit_planner "Boston" "Formal" "I am fine" true (seeded (fun _ => 1))
  = (Raise (KeyError "Boston"), seeded (fun _ => 1))
  /\ outfit_planner "Miami" "Formal" "I am fine" true (seeded (fun _ => 1))
     = (Raise (KeyError "I am fine"), advance (advance (seeded (fun _ => 1))))
  /\ outfit_planner "Miami" "Formal" "I am normal" true (seeded (fun _ => 1))
     = (Raise (KeyError "Formal"), advance (advance (seeded (fun _ => 1)))).
Proof.
  split; [|split].
  - apply (outfit_planner_first_unknown_key "Boston" "Formal" "I am fine" true).
    simpl. intuition discriminate.
  - apply (outfit_planner_first_unknown_key "Miami" "Formal" "I am fine" true);
      simpl; intuition discriminate.
  - apply (outfit_planner_first_unknown_key "Miami" "Formal" "I am normal" true);
      simpl; intuition discriminate.
Defined.

(** A call chain that returns was given keys of the three tables. *)
Lemma outfit_planner_Ok_inv
    (city style comfort : string) (show : bool) (rs rs' : RandomState) (p : plan) :
  outfit_planner city style comfort show rs = (Ok p, rs') ->
  In city cities /\ In comfort comfort_levels /\ In style styles.
Proof.
  intros Hrun.
  destruct (in_dec String.string_dec city cities) as [Hcity|Hcity]; cycle 1.
  { exfalso. revert Hrun.
    unfold outfit_planner, get_mock_weather, base, mbind, M_bind, pure.
    by rewrite getitem_fresh. }
  split; [exact Hcity|]. apply cities_city_table in Hcity as (lo & hi & Hcity).
  revert Hrun. unfold outfit_planner, mbind, M_bind, pure.
  rewrite (get_mock_weather_draws _ _ _ _ Hcity). cbv beta iota zeta.
  destruct (in_dec String.string_dec comfort comfort_levels) as [Hcomfort|Hcomfort];
    cycle 1.
  { by rewrite adjust_for_comfort_unknown. }
  intros Hrun. split; [exact Hcomfort|].
  apply comfort_levels_offset in Hcomfort as (offset & Hcomfort).
  rewrite (adjust_for_comfort_offset _ _ _ Hcomfort) in Hrun.
  destruct (in_dec String.string_dec style styles) as [Hstyle|Hstyle]; [exact Hstyle|].
  by rewrite generate_outfit_unknown in Hrun.
Qed.

(** X14: the adjusted temperature of every plan the call chain returns
    lies between 53 and 88 degrees, and within six degrees of the range
    between the city's low and high. *)
Theorem outfit_planner_adjusted_temp_range
    (city style comfort : string) (show : bool) (rs rs' : RandomState) (p : plan) :
  outfit_planner city style comfort show rs = (Ok p, rs') ->
  53 <= plan_adjusted_temp p <= 88
  /\ low (plan_weather p) - 6 <= plan_adjusted_temp p <= high (plan_weather p) + 6.
Proof.
  intros Hrun.
  destruct (outfit_planner_Ok_inv _ _ _ _ _ _ _ Hrun) as (Hcity & Hcomfort & Hstyle).
  apply cities_city_table in Hcity as (lo & hi & Hcity).
  apply comfort_levels_offset in Hcomfort as (offset & Hcomfort).
  apply bottoms_styles in Hstyle as (bottom & Hstyle).
  destruct (outfit_planner_run city style comfort bottom lo hi offset show rs
              Hcity Hcomfort Hstyle)
    as (d & rain & top & outer & shoes & Hd & _ & _ & _ & Hrun').
  rewrite Hrun in Hrun'. injection Hrun' as -> _.
  cbn [plan_adjusted_temp plan_weather low high].
  simpl in Hcity, Hcomfort.
  destruct Hcity as [H'|[H'|[H'|[H'|[]]]]]; injection H' as <- <- <-;
    change ((75 + 85) / 2) with 80; change ((60 + 72) / 2) with 66;
    change ((55 + 68) / 2) with 61; change ((65 + 78) / 2) with 71;
    destruct Hcomfort as [H'|[H'|[H'|[H'|[H'|[]]]]]]; injection H' as <- <-; lia.
Qed.

Lemma outfit_planner_adjusted_temp_range_witness :
  53 <= 53 <= 88 /\ 55 - 6 <= 53 <= 68 + 6.
Proof.
  apply (outfit_planner_adjusted_temp_range "Chicago" "Cozy"
           "I am freezing all the time" false (seeded (fun _ => 0))
           (advance (advance (seeded (fun _ => 0))))
           (mkPlan (mkWeather 55 68 59 "Low") 53
              ("warm sweater", "jacket or coat", "soft pants or leggings") None)).
  vm_compute. reflexivity.
Defined.

(** X15: which tops a city can get, over all comfort levels, styles and
    states of the generator: Miami a tank or a short-sleeve shirt; New
    York a short-sleeve shirt, a long-sleeve top or a warm sweater;
    Chicago a long-sleeve top or a warm sweater; Los Angeles a
    short-sleeve shirt or a long-sleeve top. No plan holds another
    combination, and each of the nine is the plan of some input. *)
Theorem outfit_planner_tops_by_city :
  let possible :=
    [("Miami", "light tank or breathable tee"); ("Miami", "short-sleeve shirt");
     ("New York", "short-sleeve shirt"); ("New York", "long-sleeve top");
     ("New York", "warm sweater");
     ("Chicago", "long-sleeve top"); ("Chicago", "warm sweater");
     ("Los Angeles", "short-sleeve shirt"); ("Los Angeles", "long-sleeve top")] in
  (forall city style comfort show rs rs' p,
      outfit_planner city style comfort show rs = (Ok p, rs') ->
      In (city, (plan_outfit p).1.1) possible)
  /\ (forall city top,
         In (city, top) possible ->
         exists style comfort show rs rs' p,
           outfit_planner city style comfort show rs = (Ok p, rs')
           /\ (plan_outfit p).1.1 = top).
Proof.
  intros possible. split.
  - intros city style comfort show rs rs' p Hrun.
    destruct (outfit_planner_Ok_inv _ _ _ _ _ _ _ Hrun) as (Hcity & Hcomfort & Hstyle).
    apply cities_city_table in Hcity as (lo & hi & Hcity).
    apply comfort_levels_offset in Hcomfort as (offset & Hcomfort).
    apply bottoms_styles in Hstyle as (bottom & Hstyle).
    destruct (outfit_planner_run city style comfort bottom lo hi offset show rs
                Hcity Hcomfort Hstyle)
      as (d & rain & top & outer & shoes & Hd & _ & Houtfit & _ & Hrun').
    rewrite Hrun in Hrun'. injection Hrun' as -> _. cbn [plan_outfit fst].
    destruct (generate_outfit_Ok ((lo + hi) / 2 + d + offset) style bottom Hstyle)
      as (top' & outer' & Houtfit' & Hband).
    rewrite Houtfit in Houtfit'. injection Houtfit' as <- <-.
    simpl in Hcity, Hcomfort.
    destruct Hcity as [H'|[H'|[H'|[H'|[]]]]]; injection H' as <- <- <-;
      change ((75 + 85) / 2) with 80 in Hband; change ((60 + 72) / 2) with 66 in Hband;
      change ((55 + 68) / 2) with 61 in Hband; change ((65 + 78) / 2) with 71 in Hband;
      destruct Hcomfort as [H'|[H'|[H'|[H'|[H'|[]]]]]]; injection H' as <- <-;
      destruct Hband as [Hb|[Hb|[Hb|Hb]]]; destruct Hb as (Ht & -> & _);
      first [lia | simpl; tauto].
  - intros city top Hin. simpl in Hin.
    destruct Hin as [H'|[H'|[H'|[H'|[H'|[H'|[H'|[H'|[H'|[]]]]]]]]]];
      injection H' as <- <-.
    + exists "Casual", "I am normal", false, (seeded (fun _ => 2)).
      eexists _, _. split; [vm_compute; reflexivity | reflexivity].
    + exists "Casual", "I am freezing all the time", false, (seeded (fun _ => 2)).
      eexists _, _. split; [vm_compute; reflexivity | reflexivity].
    + exists "Casual", "I am a furnace", false, (seeded (fun _ => 4)).
      eexists _, _. split; [vm_compute; reflexivity | reflexivity].
    + exists "Casual", "I am normal", false, (seeded (fun _ => 2)).
      eexists _, _. split; [vm_compute; reflexivity | reflexivity].
    + exists "Casual", "I am freezing all the time", false, (seeded (fun _ => 0)).
      eexists _, _. split; [vm_compute; reflexivity | reflexivity].
    + exists "Casual", "I am normal", false, (seeded (fun _ => 2)).
      eexists _, _. split; [vm_compute; reflexivity | reflexivity].
    + exists "Casual", "I am freezing all the time", false, (seeded (fun _ => 2)).
      eexists _, _. split; [vm_compute; reflexivity | reflexivity].
    + exists "Casual", "I am normal", false, (seeded (fun _ => 2)).
      eexists _, _. split; [vm_compute; reflexivity | reflexivity].
    + exists "Casual", "I am freezing all the time", false, (seeded (fun _ => 2)).
      eexists _, _. split; [vm_compute; reflexivity | reflexivity].
Qed.

Lemma outfit_planner_tops_by_city_witness :
  In ("Miami", "short-sleeve shirt")
    [("Miami", "light tank or breathable tee"); ("Miami", "short-sleeve shirt");
     ("New York", "short-sleeve shirt"); ("New York", "long-sleeve top");
     ("New York", "warm sweater");
     ("Chicago", "long-sleeve top"); ("Chicago", "warm sweater");
     ("Los Angeles", "short-sleeve shirt"); ("Los Angeles", "long-sleeve top")].
Proof.
  apply (proj1 outfit_planner_tops_by_city "Miami" "Casual" "I am freezing all the time"
           false (seeded (fun _ => 2)) (advance (advance (seeded (fun _ => 2))))
           (mkPlan (mkWeather 75 85 80 "High") 74
              ("short-sleeve shirt", "optional light layer", "jeans") None)).
  vm_compute. reflexivity.
Defined.

(* ===================================================================== *)
(** ** The script                                                         *)
(* ===================================================================== *)

Import Script.

(** The state in which the branch of the page starts. *)
Lemma script_eq (w : widgets) (stored : session_state) (rs : RandomState) :
  script w stored rs
  = outcome_of
      (page_body w
         (mkRunState
            (mkSession (generate_outfit_flag (initialize stored) || get_my_outfit w)
               (weather_data (initialize stored)))
            rs
            [(main_area, title "FitCast – Outfit Weather Assistant");
             (main_area,
              caption "Weather-powered outfit ideas with a little HCI sprinkled in.")])).
Proof.
  unfold script, script_body. destruct (initialize stored) as [flag data].
  destruct (get_my_outfit w), flag; reflexivity.
Qed.

Lemma page_body_planner (w : widgets) :
  page w = "Outfit Planner" -> page_body w = outfit_planner_page w.
Proof. intros Hpage. unfold page_body. by rewrite Hpage. Qed.

(** A run on the planner page with the flag set, call by call: the
    outcome after each helper function, with what has been drawn. *)
Lemma script_planner_steps (w : widgets) (stored : session_state) (rs : RandomState) :
  page w = "Outfit Planner" ->
  generate_outfit_flag (initialize stored) || get_my_outfit w = true ->
  script w stored rs
  = let heading :=
      [(main_area, title "FitCast – Outfit Weather Assistant");
       (main_area,
        caption "Weather-powered outfit ideas with a little HCI sprinkled in.");
       (main_area, subheader "Your Outfit Suggestion")] in
    match get_mock_weather (city w) rs with
    | (Raise e, rs1) =>
        mkOutcome (Some e) (store (mkSession true (weather_data (initialize stored))))
          rs1 heading
    | (Ok d, rs1) =>
        match adjust_for_comfort (feels_like d) (comfort_level w) with
        | Raise e => mkOutcome (Some e) (store (mkSession true (Some d))) rs1 heading
        | Ok adjusted_temp =>
            match generate_outfit adjusted_temp (style w) with
            | Raise e => mkOutcome (Some e) (store (mkSession true (Some d))) rs1 heading
            | Ok (top, outer, bottom) =>
                let view :=
                  (heading ++
                  [(main_area,
                    success ("Outfit ready for **" +:+ city w +:+ "** on **"
                             +:+ selected_day w +:+ "**"));
                   (col1, markdown "### Outfit Breakdown");
                   (col1, markdown ("**Top:** " +:+ top));
                   (col1, markdown ("**Outer layer:** " +:+ outer));
                   (col1, markdown ("**Bottom:** " +:+ bottom));
                   (col1, markdown ("**Style vibe:** " +:+ style w));
                   (col2, markdown "### Comfort Logic");
                   (col2, markdown ("- Feels like: **" +:+ str (feels_like d) +:+ "°F**"));
                   (col2, markdown ("- Adjusted for comfort: **" +:+ str adjusted_temp
                                    +:+ "°F**"));
                   (col2, markdown ("- Rain chance: **" +:+ rain_chance d +:+ "**"))])%list
                in
                if show_shoes w then
                  match shoe_suggestion adjusted_temp (rain_chance d) with
                  | Ok shoes =>
                      mkOutcome None (store (mkSession true (Some d))) rs1
                        (view ++
                         [(main_area,
                           markdown ("### Shoes 👟" +:+ newline +:+ "**" +:+ shoes
                                     +:+ "**"))])%list
                  | Raise e => mkOutcome (Some e) (store (mkSession true (Some d))) rs1 view
                  end
                else mkOutcome None (store (mkSession true (Some d))) rs1 view
            end
        end
    end.
Proof.
  intros Hpage Hflag. rewrite script_eq, Hflag, (page_body_planner _ Hpage).
  unfold outfit_planner_page.
  cbv beta iota zeta delta
    [mbind Run_bind mret Run_ret draw call call_random get_session
     set_weather_data run_session run_random rendered generate_outfit_flag
     weather_data negb outcome_of].
  cbn [app].
  destruct (get_mock_weather (city w) rs) as [[d|e] rs1]; [|reflexivity].
  destruct (adjust_for_comfort (feels_like d) (comfort_level w)) as [adjusted_temp|e];
    [|reflexivity].
  destruct (generate_outfit adjusted_temp (style w)) as [[[top outer] bottom]|e];
    [|reflexivity].
  destruct (show_shoes w); [|reflexivity].
  destruct (shoe_suggestion adjusted_temp (rain_chance d)); reflexivity.
Qed.

(** A run on the planner page that finds the flag unset only draws the
    prompt. *)
Lemma script_planner_idle (w : widgets) (stored : session_state) (rs : RandomState) :
  page w = "Outfit Planner" ->
  generate_outfit_flag (initialize stored) || get_my_outfit w = false ->
  script w stored rs
  = mkOutcome None (store (mkSession false (weather_data (initialize stored)))) rs
      [(main_area, title "FitCast – Outfit Weather Assistant");
       (main_area,
        caption "Weather-powered outfit ideas with a little HCI sprinkled in.");
       (main_area, subheader "Your Outfit Suggestion");
       (main_area,
        info "Choose your preferences in the sidebar and click **Get my outfit**.")].
Proof.
  intros Hpage Hflag. rewrite script_eq, Hflag, (page_body_planner _ Hpage).
  reflexivity.
Qed.

(** A run on the forecast page draws the stored reading, or a prompt
    when there is none. *)
Lemma script_forecast (w : widgets) (stored : session_state) (rs : RandomState) :
  page w = "Forecast Details" ->
  script w stored rs
  = mkOutcome None
      (store (mkSession (generate_outfit_flag (initialize stored) || get_my_outfit w)
                (weather_data (initialize stored))))
      rs
      ([(main_area, title "FitCast – Outfit Weather Assistant");
        (main_area,
         caption "Weather-powered outfit ideas with a little HCI sprinkled in.");
        (main_area, subheader "Forecast Details")]
       ++ match weather_data (initialize stored) with
          | None =>
              [(main_area, info "Generate an outfit first to view forecast details.")]
          | Some data =>
              [(main_area, table (forecast_frame data));
               (main_area,
                caption
                  "Forecast data is intentionally simplified to support usability testing.")]
          end)%list.
Proof.
  intros Hpage. rewrite script_eq. unfold page_body. rewrite Hpage.
  change ("Forecast Details" =? "Home")%string with false.
  change ("Forecast Details" =? "Outfit Planner")%string with false.
  change ("Forecast Details" =? "Forecast Details")%string with true.
  cbv beta iota. unfold forecast_details_page.
  destruct (weather_data (initialize stored)); reflexivity.
Qed.

(** A run on any page but the planner's ends normally and leaves the
    generator and the stored reading as they are. *)
Lemma script_not_planner (w : widgets) (stored : session_state) (rs : RandomState) :
  page w <> "Outfit Planner" ->
  raised (script w stored rs) = None
  /\ random_after (script w stored rs) = rs
  /\ session_after (script w stored rs)
     = store (mkSession (generate_outfit_flag (initialize stored) || get_my_outfit w)
                (weather_data (initialize stored))).
Proof.
  intros Hpage. rewrite script_eq. unfold page_body.
  destruct (String.eqb_spec (page w) "Home"); [by repeat split|].
  destruct (String.eqb_spec (page w) "Outfit Planner"); [done|].
  destruct (String.eqb_spec (page w) "Forecast Details").
  { unfold forecast_details_page.
    destruct (weather_data (initialize stored)); by repeat split. }
  destruct (String.eqb_spec (page w) "About HCI Choices"); by repeat split.
Qed.

Lemma get_mock_weather_unknown (c : string) (rs : RandomState) :
  ~ In c cities -> get_mock_weather c rs = (Raise (KeyError c), rs).
Proof.
  intros Hout. unfold get_mock_weather, base, mbind, M_bind, pure.
  by rewrite getitem_fresh.
Qed.

(** What [get_mock_weather] returns is a generated reading, two draws
    further, of a city of the table. *)
Lemma get_mock_weather_Ok_inv (c : string) (rs rs1 : RandomState) (d : weather) :
  get_mock_weather c rs = (Ok d, rs1) ->
  In c cities /\ rs1 = advance (advance rs) /\ generated_reading d.
Proof.
  intros Hrun.
  destruct (in_dec String.string_dec c cities) as [Hc|Hc];
    [|by rewrite get_mock_weather_unknown in Hrun].
  split; [exact Hc|]. apply cities_city_table in Hc as (lo & hi & Hin).
  rewrite (get_mock_weather_draws _ _ _ _ Hin) in Hrun. injection Hrun as <- <-.
  split; [reflexivity|]. unfold generated_reading. cbn [low high feels_like rain_chance].
  split; [by exists c|]. split.
  - pose proof (Z.mod_pos_bound (entropy rs (consumed rs)) 5).
    simpl in Hin. destruct Hin as [H'|[H'|[H'|[H'|[]]]]]; injection H' as <- <- <-;
      change ((75 + 85) / 2) with 80; change ((60 + 72) / 2) with 66;
      change ((55 + 68) / 2) with 61; change ((65 + 78) / 2) with 71; lia.
  - destruct (choice_Ok "Low" ["Medium"; "High"] (advance rs)) as [rain Hrain].
    pose proof (choice_In _ _ _ _ Hrain) as Hin'.
    unfold choice, next_raw in Hrain. cbv beta iota zeta in Hrain.
    injection Hrain as <-. exact Hin'.
Qed.

(** The flag after a run: what it was, or set by the button. No branch of
    the script clears it, and an exception does not undo it. *)
Lemma script_flag (w : widgets) (stored : session_state) (rs : RandomState) :
  stored_generate_outfit (session_after (script w stored rs))
  = Some (generate_outfit_flag (initialize stored) || get_my_outfit w).
Proof.
  destruct (String.eqb_spec (page w) "Outfit Planner") as [Hpage|Hpage].
  - destruct (generate_outfit_flag (initialize stored) || get_my_outfit w) eqn:Hflag.
    + rewrite (script_planner_steps _ _ _ Hpage Hflag). cbv zeta.
      destruct (get_mock_weather (city w) rs) as [[d|e] rs1]; [|reflexivity].
      destruct (adjust_for_comfort _ _); [|reflexivity].
      destruct (generate_outfit _ _) as [[[top outer] bottom]|e]; [|reflexivity].
      destruct (show_shoes w); [|reflexivity].
      destruct (shoe_suggestion _ _); reflexivity.
    + by rewrite (script_planner_idle _ _ _ Hpage Hflag).
  - destruct (script_not_planner w stored rs Hpage) as (_ & _ & ->). reflexivity.
Qed.

(** The stored reading after a run: the one stored before, or the
    reading [get_mock_weather] returned on the planner page. *)
Lemma script_weather_data (w : widgets) (stored : session_state) (rs : RandomState) :
  stored_weather_data (session_after (script w stored rs))
  = Some (weather_data (initialize stored))
  \/ (generate_outfit_flag (initialize stored) || get_my_outfit w = true
      /\ exists d rs1,
          get_mock_weather (city w) rs = (Ok d, rs1)
          /\ stored_weather_data (session_after (script w stored rs)) = Some (Some d)).
Proof.
  destruct (String.eqb_spec (page w) "Outfit Planner") as [Hpage|Hpage].
  - destruct (generate_outfit_flag (initialize stored) || get_my_outfit w) eqn:Hflag.
    + rewrite (script_planner_steps _ _ _ Hpage Hflag). cbv zeta.
      destruct (get_mock_weather (city w) rs) as [[d|e] rs1]; [|by left].
      right. split; [reflexivity|]. exists d, rs1. split; [reflexivity|].
      destruct (adjust_for_comfort _ _); [|reflexivity].
      destruct (generate_outfit _ _) as [[[top outer] bottom]|e]; [|reflexivity].
      destruct (show_shoes w); [|reflexivity].
      destruct (shoe_suggestion _ _); reflexivity.
    + left. by rewrite (script_planner_idle _ _ _ Hpage Hflag).
  - left. destruct (script_not_planner w stored rs Hpage) as (_ & _ & ->). reflexivity.
Qed.

(** X16: a run raises only on the planner page with the flag set, and
    then exactly the [KeyError] of the first selection, in the order city,
    comfort level, style, that is outside its table. A run whose three
    selections come from the option lists never raises. *)
Theorem script_raises_iff_unknown_key
    (w : widgets) (stored : session_state) (rs : RandomState) (e : exception) :
  raised (script w stored rs) = Some e
  <-> page w = "Outfit Planner"
      /\ generate_outfit_flag (initialize stored) || get_my_outfit w = true
      /\ ((~ In (city w) cities /\ e = KeyError (city w))
          \/ (In (city w) cities /\ ~ In (comfort_level w) comfort_levels
              /\ e = KeyError (comfort_level w))
          \/ (In (city w) cities /\ In (comfort_level w) comfort_levels
              /\ ~ In (style w) styles /\ e = KeyError (style w))).
Proof.
  destruct (String.eqb_spec (page w) "Outfit Planner") as [Hpage|Hpage]; cycle 1.
  { destruct (script_not_planner w stored rs Hpage) as (-> & _ & _).
    split; [discriminate | tauto]. }
  destruct (generate_outfit_flag (initialize stored) || get_my_outfit w) eqn:Hflag;
    cycle 1.
  { rewrite (script_planner_idle _ _ _ Hpage Hflag). cbn [raised].
    split; [discriminate | intros (_ & ? & _); discriminate]. }
  rewrite (script_planner_steps _ _ _ Hpage Hflag). cbv zeta.
  destruct (in_dec String.string_dec (city w) cities) as [Hcity|Hcity]; cycle 1.
  { rewrite (get_mock_weather_unknown _ _ Hcity). cbn [raised].
    split; [intros [= <-]; tauto|]. intros (_ & _ & [H|[H|H]]); [|tauto..].
    by destruct H as [_ ->]. }
  pose proof Hcity as Hcity'. apply cities_city_table in Hcity' as (lo & hi & Hin).
  rewrite (get_mock_weather_draws _ _ _ _ Hin). cbn [feels_like rain_chance].
  destruct (in_dec String.string_dec (comfort_level w) comfort_levels)
    as [Hcomfort|Hcomfort]; cycle 1.
  { rewrite (adjust_for_comfort_unknown _ _ Hcomfort). cbn [raised].
    split; [intros [= <-]; tauto|]. intros (_ & _ & [H|[H|H]]); [tauto| |tauto].
    by destruct H as (_ & _ & ->). }
  pose proof Hcomfort as Hcomfort'.
  apply comfort_levels_offset in Hcomfort' as (offset & Hoffset).
  rewrite (adjust_for_comfort_offset _ _ _ Hoffset).
  destruct (in_dec String.string_dec (style w) styles) as [Hstyle|Hstyle]; cycle 1.
  { rewrite (generate_outfit_unknown _ _ Hstyle). cbn [raised].
    split; [intros [= <-]; tauto|]. intros (_ & _ & [H|[H|H]]); [tauto..|].
    by destruct H as (_ & _ & _ & ->). }
  pose proof Hstyle as Hstyle'. apply bottoms_styles in Hstyle' as (bottom & Hlk).
  match goal with
  | |- context [generate_outfit ?t (style w)] =>
      destruct (generate_outfit_Ok t (style w) bottom Hlk) as (top & outer & -> & _);
      destruct (shoe_suggestion_Ok t
                  (nth (Z.to_nat (entropy rs (S (consumed rs)) mod 3)) rain_chances "Low"))
        as [shoes ->]
  end.
  destruct (show_shoes w); cbn [raised]; (split; [discriminate | tauto]).
Qed.

Lemma script_raises_iff_unknown_key_witness :
  raised
    (script (mkWidgets "Outfit Planner" "Miami" "Casual" "2026-01-15" "I am cosy"
               true true)
       new_session (seeded (fun _ => 1)))
  = Some (KeyError "I am cosy").
Proof.
  apply (script_raises_iff_unknown_key
           (mkWidgets "Outfit Planner" "Miami" "Casual" "2026-01-15" "I am cosy"
              true true)).
  split; [reflexivity|]. split; [reflexivity|]. right. left.
  cbn [city comfort_level]. split; [simpl; tauto|].
  split; [simpl; intuition discriminate | reflexivity].
Defined.

Lemma initialize_store (s : session) : initialize (store s) = s.
Proof. by destruct s. Qed.

Lemma script_session_stored (w : widgets) (stored : session_state) (rs : RandomState) :
  exists s, session_after (script w stored rs) = store s.
Proof. unfold script, outcome_of. destruct (script_body _ _) as [r st]. eauto. Qed.

(** The flag the next run finds. *)
Lemma script_flag_initialize (w : widgets) (stored : session_state) (rs : RandomState) :
  generate_outfit_flag (initialize (session_after (script w stored rs)))
  = generate_outfit_flag (initialize stored) || get_my_outfit w.
Proof.
  pose proof (script_flag w stored rs) as Hflag.
  unfold initialize at 1. by rewrite Hflag.
Qed.

(** X17: whatever pages are visited and whatever values the widgets
    hold, a reading kept in the session is a generated reading (the range
    of a city of the table, a perceived temperature within that range, a
    rain chance among Low, Medium, High), and it is only there once the
    flag is set. *)
Theorem browse_keeps_generated_readings
    (ws : list widgets) (rs : RandomState) (d : weather) :
  stored_weather_data (fst (browse ws new_session rs)) = Some (Some d) ->
  stored_generate_outfit (fst (browse ws new_session rs)) = Some true
  /\ generated_reading d.
Proof.
  set (inv := fun stored : session_state =>
         (stored_weather_data stored = None
          \/ exists s, stored = store s
                       /\ forall d, weather_data s = Some d ->
                                    generate_outfit_flag s = true
                                    /\ generated_reading d)).
  assert (Hpres : forall ws stored rs, inv stored -> inv (fst (browse ws stored rs))).
  { clear. intros ws. induction ws as [|w ws IH]; intros stored rs Hinv; [exact Hinv|].
    cbn [browse]. apply IH. right.
    destruct (script_session_stored w stored rs) as [s Hs]. exists s.
    split; [exact Hs|]. intros d Hd.
    pose proof (script_flag_initialize w stored rs) as Hflag.
    rewrite Hs, initialize_store in Hflag.
    destruct (script_weather_data w stored rs) as [Hold|(Hset & d' & rs1 & Hrun & Hnew)].
    - rewrite Hs in Hold. cbn [store stored_weather_data] in Hold.
      injection Hold as Hold. rewrite Hd in Hold.
      destruct Hinv as [Hnone|(s0 & -> & Hinv)].
      + unfold initialize in Hold. by rewrite Hnone in Hold.
      + rewrite initialize_store in *. symmetry in Hold.
        destruct (Hinv d Hold) as [Hflag0 Hgen].
        split; [|exact Hgen]. rewrite Hflag, Hflag0. reflexivity.
    - rewrite Hs in Hnew. cbn [store stored_weather_data] in Hnew.
      injection Hnew as Hnew. rewrite Hd in Hnew. injection Hnew as ->.
      split; [by rewrite Hflag|].
      by destruct (get_mock_weather_Ok_inv _ _ _ _ Hrun) as (_ & _ & Hgen). }
  intros Hd. destruct (Hpres ws new_session rs) as [Hnone|(s & Hs & Hinv)].
  - by left.
  - by rewrite Hnone in Hd.
  - rewrite Hs in *. cbn [store stored_weather_data stored_generate_outfit] in *.
    injection Hd as Hd. destruct (Hinv d Hd) as [-> Hgen]. by split.
Qed.

Lemma browse_keeps_generated_readings_witness :
  stored_generate_outfit
    (fst (browse [mkWidgets "Outfit Planner" "Chicago" "Cozy" "2026-01-15"
                    "I run cold" false true;
                  mkWidgets "Home" "Boston" "Cozy" "2026-01-15" "I run cold" false false]
            new_session (seeded (fun _ => 4))))
  = Some true
  /\ generated_reading (mkWeather 55 68 63 "Medium").
Proof.
  apply (browse_keeps_generated_readings
           [mkWidgets "Outfit Planner" "Chicago" "Cozy" "2026-01-15" "I run cold"
              false true;
            mkWidgets "Home" "Boston" "Cozy" "2026-01-15" "I run cold" false false]
           (seeded (fun _ => 4))).
  vm_compute. reflexivity.
Defined.

(** X18: the flag is a latch: after any non-empty sequence of runs it is
    set exactly when it was set before or the button was pressed in one
    of the runs; nothing ever clears it. *)
Theorem browse_flag_is_a_latch
    (ws : list widgets) (stored : session_state) (rs : RandomState) :
  ws <> [] ->
  stored_generate_outfit (fst (browse ws stored rs))
  = Some (generate_outfit_flag (initialize stored) || existsb get_my_outfit ws).
Proof.
  revert stored rs. induction ws as [|w ws IH]; intros stored rs Hne; [done|].
  cbn [browse existsb]. destruct ws as [|w' ws].
  - cbn [browse fst existsb]. rewrite script_flag. by rewrite orb_false_r.
  - rewrite IH by done. rewrite script_flag_initialize. by rewrite orb_assoc.
Qed.

Lemma browse_flag_is_a_latch_witness :
  stored_generate_outfit
    (fst (browse [mkWidgets "Home" "Miami" "Cozy" "2026-01-15" "I run cold" true true;
                  mkWidgets "About HCI Choices" "Miami" "Cozy" "2026-01-15" "I run cold"
                    true false]
            new_session (seeded (fun _ => 0))))
  = Some (generate_outfit_flag (initialize new_session)
          || existsb get_my_outfit
               [mkWidgets "Home" "Miami" "Cozy" "2026-01-15" "I run cold" true true;
                mkWidgets "About HCI Choices" "Miami" "Cozy" "2026-01-15" "I run cold"
                  true false]).
Proof.
  apply (browse_flag_is_a_latch
           [mkWidgets "Home" "Miami" "Cozy" "2026-01-15" "I run cold" true true;
            mkWidgets "About HCI Choices" "Miami" "Cozy" "2026-01-15" "I run cold"
              true false]).
  discriminate.
Defined.

(** X19: until the button is pressed nothing is computed: from a new
    session, runs without a press of the button, on any pages and with
    any widget values, leave the generator untouched and store no
    reading, and none of them raises. *)
Theorem browse_without_button_is_idle
    (ws : list widgets) (rs : RandomState) :
  ws <> [] ->
  existsb get_my_outfit ws = false ->
  browse ws new_session rs = (mkSessionState (Some false) (Some None), rs)
  /\ Forall (fun w => forall stored,
                 initialize stored = initialize new_session ->
                 raised (script w stored rs) = None) ws.
Proof.
  intros Hne Hidle. split.
  - assert (Hstep : forall w stored,
               initialize stored = mkSession false None ->
               get_my_outfit w = false ->
               session_after (script w stored rs) = mkSessionState (Some false) (Some None)
               /\ random_after (script w stored rs) = rs).
    { intros w stored Hinit Hbutton.
      destruct (String.eqb_spec (page w) "Outfit Planner") as [Hpage|Hpage].
      - rewrite (script_planner_idle _ _ _ Hpage) by (by rewrite Hinit, Hbutton).
        rewrite Hinit. by split.
      - destruct (script_not_planner w stored rs Hpage) as (_ & -> & ->).
        rewrite Hinit, Hbutton. by split. }
    assert (Hall : forall ws stored,
               initialize stored = mkSession false None ->
               ws <> [] -> existsb get_my_outfit ws = false ->
               browse ws stored rs = (mkSessionState (Some false) (Some None), rs)).
    { clear Hne Hidle. intros ws'. induction ws' as [|w ws' IH];
        intros stored Hinit Hne Hidle; [done|].
      cbn [existsb] in Hidle. apply orb_false_elim in Hidle as [Hbutton Hidle].
      destruct (Hstep w stored Hinit Hbutton) as [Hs Hr]. cbn [browse].
      rewrite Hs, Hr. destruct ws' as [|w' ws']; [reflexivity|].
      by apply IH. }
    by apply Hall.
  - apply Forall_forall. intros w Hw stored Hinit.
    assert (Hbutton : get_my_outfit w = false).
    { destruct (get_my_outfit w) eqn:Hb; [|reflexivity].
      assert (existsb get_my_outfit ws = true) as Hex
        by (apply existsb_exists; exists w; split; [by apply list_elem_of_In|done]).
      by rewrite Hex in Hidle. }
    destruct (String.eqb_spec (page w) "Outfit Planner") as [Hpage|Hpage].
    + rewrite (script_planner_idle _ _ _ Hpage) by (by rewrite Hinit, Hbutton).
      reflexivity.
    + by destruct (script_not_planner w stored rs Hpage) as (-> & _ & _).
Qed.

Lemma browse_without_button_is_idle_witness :
  browse [mkWidgets "Outfit Planner" "Atlantis" "Cozy" "2026-01-15" "I run cold" true false;
          mkWidgets "Forecast Details" "Miami" "Cozy" "2026-01-15" "I run cold" true false]
    new_session (seeded (fun _ => 0))
  = (mkSessionState (Some false) (Some None), seeded (fun _ => 0)).
Proof.
  apply (browse_without_button_is_idle
           [mkWidgets "Outfit Planner" "Atlantis" "Cozy" "2026-01-15" "I run cold"
              true false;
            mkWidgets "Forecast Details" "Miami" "Cozy" "2026-01-15" "I run cold"
              true false]);
    [discriminate | reflexivity].
Defined.

(** X20: the forecast page shows the reading of the last planner run:
    after a run on the planner page with the flag set and a city of the
    table, whether or not that run then failed on the comfort level or
    the style, a run on the forecast page draws the table of exactly the
    reading generated there, without drawing from the generator. *)
Theorem forecast_details_shows_planner_reading
    (w1 w2 : widgets) (stored : session_state) (rs : RandomState) :
  page w1 = "Outfit Planner" ->
  generate_outfit_flag (initialize stored) || get_my_outfit w1 = true ->
  In (city w1) cities ->
  page w2 = "Forecast Details" ->
  exists d,
    fst (get_mock_weather (city w1) rs) = Ok d
    /\ random_after (script w1 stored rs) = advance (advance rs)
    /\ script w2 (session_after (script w1 stored rs)) (random_after (script w1 stored rs))
       = mkOutcome None (mkSessionState (Some true) (Some (Some d)))
           (advance (advance rs))
           [(main_area, title "FitCast – Outfit Weather Assistant");
            (main_area,
             caption "Weather-powered outfit ideas with a little HCI sprinkled in.");
            (main_area, subheader "Forecast Details");
            (main_area, table (forecast_frame d));
            (main_area,
             caption
               "Forecast data is intentionally simplified to support usability testing.")].
Proof.
  intros Hpage1 Hflag Hcity Hpage2.
  apply cities_city_table in Hcity as (lo & hi & Hin).
  pose proof (get_mock_weather_draws _ _ _ rs Hin) as Hrun.
  set (d := mkWeather _ _ _ _) in Hrun. exists d.
  rewrite Hrun. split; [reflexivity|].
  assert (Hafter : session_after (script w1 stored rs)
                   = mkSessionState (Some true) (Some (Some d))
                   /\ random_after (script w1 stored rs) = advance (advance rs)).
  { rewrite (script_planner_steps _ _ _ Hpage1 Hflag). cbv zeta. rewrite Hrun.
    destruct (adjust_for_comfort _ _); [|by split].
    destruct (generate_outfit _ _) as [[[top outer] bottom]|e]; [|by split].
    destruct (show_shoes w1); [|by split].
    destruct (shoe_suggestion _ _); by split. }
  destruct Hafter as [-> ->]. split; [reflexivity|].
  rewrite (script_forecast _ _ _ Hpage2). cbn [initialize stored_generate_outfit
    stored_weather_data generate_outfit_flag weather_data orb store app].
  reflexivity.
Qed.

Lemma forecast_details_shows_planner_reading_witness :
  exists d,
    fst (get_mock_weather "New York" (seeded (fun _ => 3))) = Ok d
    /\ random_after
         (script (mkWidgets "Outfit Planner" "New York" "Punk" "2026-01-15"
                    "I am normal" true true)
            new_session (seeded (fun _ => 3)))
       = advance (advance (seeded (fun _ => 3)))
    /\ script (mkWidgets "Forecast Details" "Miami" "Cozy" "2026-01-16" "I run warm"
                 false false)
         (session_after
            (script (mkWidgets "Outfit Planner" "New York" "Punk" "2026-01-15"
                       "I am normal" true true)
               new_session (seeded (fun _ => 3))))
         (random_after
            (script (mkWidgets "Outfit Planner" "New York" "Punk" "2026-01-15"
                       "I am normal" true true)
               new_session (seeded (fun _ => 3))))
       = mkOutcome None (mkSessionState (Some true) (Some (Some d)))
           (advance (advance (seeded (fun _ => 3))))
           [(main_area, title "FitCast – Outfit Weather Assistant");
            (main_area,
             caption "Weather-powered outfit ideas with a little HCI sprinkled in.");
            (main_area, subheader "Forecast Details");
            (main_area, table (forecast_frame d));
            (main_area,
             caption
               "Forecast data is intentionally simplified to support usability testing.")].
Proof.
  apply (forecast_details_shows_planner_reading
           (mkWidgets "Outfit Planner" "New York" "Punk" "2026-01-15" "I am normal"
              true true)
           (mkWidgets "Forecast Details" "Miami" "Cozy" "2026-01-16" "I run warm"
              false false));
    [reflexivity | reflexivity | simpl; tauto | reflexivity].
Defined.

Lemma string_length_append (s t : string) :
  String.length (s +:+ t) = (String.length s + String.length t)%nat.
Proof.
  induction s as [|a s IH]; [reflexivity|].
  change (S (String.length (s +:+ t)) = S (String.length s + String.length t)).
  by rewrite IH.
Qed.

(** Appending the same suffix to different strings gives different
    strings. *)
Lemma string_append_inj_r (s1 s2 t : string) : s1 +:+ t = s2 +:+ t -> s1 = s2.
Proof.
  revert s2. induction s1 as [|a s1 IH]; intros [|b s2] Heq.
  - reflexivity.
  - apply (f_equal String.length) in Heq.
    rewrite (string_length_append (String b s2) t) in Heq.
    change (String.length ("" +:+ t)) with (String.length t) in Heq.
    simpl in Heq. lia.
  - apply (f_equal String.length) in Heq.
    rewrite (string_length_append (String a s1) t) in Heq.
    change (String.length ("" +:+ t)) with (String.length t) in Heq.
    simpl in Heq. lia.
  - change (String a (s1 +:+ t) = String b (s2 +:+ t)) in Heq.
    injection Heq as -> Heq. f_equal. by apply IH.
Qed.

(** X21: the table of the forecast page determines the reading: two
    readings with the same table are the same reading, so the page loses
    nothing of what is stored. *)
Theorem forecast_frame_determines_reading (d1 d2 : weather) :
  forecast_frame d1 = forecast_frame d2 -> d1 = d2.
Proof.
  destruct d1 as [lo1 hi1 feels1 rain1], d2 as [lo2 hi2 feels2 rain2].
  unfold forecast_frame. cbn [low high feels_like rain_chance].
  intros [= Hlo Hhi Hfeels ->].
  apply string_append_inj_r, (inj pretty) in Hlo.
  apply string_append_inj_r, (inj pretty) in Hhi.
  apply string_append_inj_r, (inj pretty) in Hfeels.
  by subst.
Qed.

Lemma forecast_frame_determines_reading_witness :
  mkWeather 60 72 (132 / 2) "Low" = mkWeather 60 72 66 "Low".
Proof.
  apply (forecast_frame_determines_reading
           (mkWeather 60 72 (132 / 2) "Low") (mkWeather 60 72 66 "Low")).
  reflexivity.
Defined.

(** X22: a run on the planner page whose comfort level is outside the
    table fails only after the weather was generated: it raises the
    [KeyError] of the comfort level, but the two draws are consumed and
    the new reading has already replaced the stored one; only the title,
    the caption and the subheader were drawn. *)
Theorem script_unknown_comfort_level_keeps_new_reading
    (w : widgets) (stored : session_state) (rs : RandomState) :
  page w = "Outfit Planner" ->
  generate_outfit_flag (initialize stored) || get_my_outfit w = true ->
  In (city w) cities ->
  ~ In (comfort_level w) comfort_levels ->
  exists d,
    fst (get_mock_weather (city w) rs) = Ok d
    /\ script w stored rs
       = mkOutcome (Some (KeyError (comfort_level w)))
           (mkSessionState (Some true) (Some (Some d)))
           (advance (advance rs))
           [(main_area, title "FitCast – Outfit Weather Assistant");
            (main_area,
             caption "Weather-powered outfit ideas with a little HCI sprinkled in.");
            (main_area, subheader "Your Outfit Suggestion")].
Proof.
  intros Hpage Hflag Hcity Hcomfort.
  apply cities_city_table in Hcity as (lo & hi & Hin).
  pose proof (get_mock_weather_draws _ _ _ rs Hin) as Hrun.
  set (d := mkWeather _ _ _ _) in Hrun. exists d.
  rewrite (script_planner_steps _ _ _ Hpage Hflag). cbv zeta. rewrite Hrun.
  split; [reflexivity|]. by rewrite (adjust_for_comfort_unknown _ _ Hcomfort).
Qed.

Lemma script_unknown_comfort_level_keeps_new_reading_witness :
  exists d,
    fst (get_mock_weather "Miami" (seeded (fun _ => 1))) = Ok d
    /\ script (mkWidgets "Outfit Planner" "Miami" "Casual" "2026-01-15" "I am cosy"
                 true false)
         (mkSessionState (Some true) (Some None)) (seeded (fun _ => 1))
       = mkOutcome (Some (KeyError "I am cosy"))
           (mkSessionState (Some true) (Some (Some d)))
           (advance (advance (seeded (fun _ => 1))))
           [(main_area, title "FitCast – Outfit Weather Assistant");
            (main_area,
             caption "Weather-powered outfit ideas with a little HCI sprinkled in.");
            (main_area, subheader "Your Outfit Suggestion")].
Proof.
  apply (script_unknown_comfort_level_keeps_new_reading
           (mkWidgets "Outfit Planner" "Miami" "Casual" "2026-01-15" "I am cosy"
              true false)
           (mkSessionState (Some true) (Some None)));
    [reflexivity | reflexivity | simpl; tauto | simpl; intuition discriminate].
Defined.

(** X23: a run on the planner page with the flag set is the call chain:
    it ends as [outfit_planner] ends, raising what it raises, and leaves
    the generator where it leaves it; when the call chain returns a
    plan, the reading of the plan is stored and the page draws, in order,
    the success line, the outfit of the plan in the first column, its
    temperatures and rain chance in the second, and the shoes of the plan
    when it has some. *)
Theorem script_planner_draws_the_plan
    (w : widgets) (stored : session_state) (rs rs' : RandomState) (r : result plan) :
  page w = "Outfit Planner" ->
  generate_outfit_flag (initialize stored) || get_my_outfit w = true ->
  outfit_planner (city w) (style w) (comfort_level w) (show_shoes w) rs = (r, rs') ->
  raised (script w stored rs) = match r with Ok _ => None | Raise e => Some e end
  /\ random_after (script w stored rs) = rs'
  /\ forall p, r = Ok p ->
       session_after (script w stored rs)
       = mkSessionState (Some true) (Some (Some (plan_weather p)))
       /\ drawn (script w stored rs)
          = ([(main_area, title "FitCast – Outfit Weather Assistant");
              (main_area,
               caption "Weather-powered outfit ideas with a little HCI sprinkled in.");
              (main_area, subheader "Your Outfit Suggestion");
              (main_area,
               success ("Outfit ready for **" +:+ city w +:+ "** on **"
                        +:+ selected_day w +:+ "**"));
              (col1, markdown "### Outfit Breakdown");
              (col1, markdown ("**Top:** " +:+ (plan_outfit p).1.1));
              (col1, markdown ("**Outer layer:** " +:+ (plan_outfit p).1.2));
              (col1, markdown ("**Bottom:** " +:+ (plan_outfit p).2));
              (col1, markdown ("**Style vibe:** " +:+ style w));
              (col2, markdown "### Comfort Logic");
              (col2, markdown ("- Feels like: **"
                               +:+ str (feels_like (plan_weather p)) +:+ "°F**"));
              (col2, markdown ("- Adjusted for comfort: **"
                               +:+ str (plan_adjusted_temp p) +:+ "°F**"));
              (col2, markdown ("- Rain chance: **"
                               +:+ rain_chance (plan_weather p) +:+ "**"))]
             ++ match plan_shoes p with
                | Some shoes =>
                    [(main_area,
                      markdown ("### Shoes 👟" +:+ newline +:+ "**" +:+ shoes +:+ "**"))]
                | None => []
                end)%list.
Proof.
  intros Hpage Hflag. rewrite (script_planner_steps _ _ _ Hpage Hflag). cbv zeta.
  unfold outfit_planner, mbind, M_bind, pure.
  destruct (get_mock_weather (city w) rs) as [[d|e] rs1];
    [|intros [= <- <-]; split; [|split]; [reflexivity..|intros ? [=]]].
  cbv beta iota zeta.
  destruct (adjust_for_comfort _ _) as [adjusted_temp|e];
    [|intros [= <- <-]; split; [|split]; [reflexivity..|intros ? [=]]].
  destruct (generate_outfit _ _) as [[[top outer] bottom]|e];
    [|intros [= <- <-]; split; [|split]; [reflexivity..|intros ? [=]]].
  destruct (show_shoes w).
  - destruct (shoe_suggestion _ _) as [shoes|e];
      intros [= <- <-]; (split; [|split]; [reflexivity..|]);
      intros ? [= <-]; split; reflexivity.
  - intros [= <- <-]; (split; [|split]; [reflexivity..|]);
      intros ? [= <-]; split; reflexivity.
Qed.

Lemma script_planner_draws_the_plan_witness :
  raised
    (script (mkWidgets "Outfit Planner" "Miami" "Casual" "2026-01-15" "I am normal"
               false true)
       new_session (seeded (fun _ => 2)))
  = None.
Proof.
  apply (script_planner_draws_the_plan
           (mkWidgets "Outfit Planner" "Miami" "Casual" "2026-01-15" "I am normal"
              false true)
           new_session (seeded (fun _ => 2)) (advance (advance (seeded (fun _ => 2))))
           (Ok (mkPlan (mkWeather 75 85 80 "High") 80
                  ("light tank or breathable tee", "no jacket needed", "jeans") None)));
    [reflexivity | reflexivity | vm_compute; reflexivity].
Defined.

(** X24: browsing the other pages never re-rolls the weather: over any
    sequence of runs none of which is on the planner page, whatever the
    flag and the other widget values, the generator is where it was, the
    stored reading is the one that was stored, and no run raises. *)
Theorem browse_off_planner_keeps_reading
    (ws : list widgets) (stored : session_state) (rs : RandomState) :
  Forall (fun w => page w <> "Outfit Planner") ws ->
  snd (browse ws stored rs) = rs
  /\ weather_data (initialize (fst (browse ws stored rs)))
     = weather_data (initialize stored)
  /\ Forall (fun w => forall stored', raised (script w stored' rs) = None) ws.
Proof.
  intros Hpages. split; [|split].
  - revert stored. induction Hpages as [|w ws Hpage _ IH]; intros stored; [reflexivity|].
    cbn [browse]. destruct (script_not_planner w stored rs Hpage) as (_ & -> & _).
    apply IH.
  - revert stored. induction Hpages as [|w ws Hpage _ IH]; intros stored; [reflexivity|].
    cbn [browse]. destruct (script_not_planner w stored rs Hpage) as (_ & -> & ->).
    rewrite IH. by rewrite initialize_store.
  - eapply Forall_impl; [exact Hpages|]. intros w Hpage stored'.
    by destruct (script_not_planner w stored' rs Hpage) as (-> & _ & _).
Qed.

Lemma browse_off_planner_keeps_reading_witness :
  snd (browse [mkWidgets "Forecast Details" "Miami" "Cozy" "2026-01-15" "I run cold"
                 true true;
               mkWidgets "Home" "Nowhere" "Cozy" "2026-01-15" "I run cold" true false]
         (mkSessionState (Some true) (Some (Some (mkWeather 75 85 81 "Low"))))
         (seeded (fun _ => 0)))
  = seeded (fun _ => 0).
Proof.
  apply (browse_off_planner_keeps_reading
           [mkWidgets "Forecast Details" "Miami" "Cozy" "2026-01-15" "I run cold"
              true true;
            mkWidgets "Home" "Nowhere" "Cozy" "2026-01-15" "I run cold" true false]).
  repeat constructor; discriminate.
Defined.
